(** * Solo Leveling productivity API: the reward-claim state machine

    A shallow embedding of [src/main.py] (the FastAPI routes over a
    document store) and the properties of its progression logic:
    level rollover, rank derivation, stat accrual, idempotent
    completion and claiming, and activity-log emission. *)

From Stdlib Require Import ZArith NArith Ascii String List Lia.
From stdpp Require Import base decidable option list gmap strings pretty
  sorting.
From Equations Require Import Equations.

Local Open Scope string_scope.
Local Open Scope Z_scope.

(** ** Python values held in documents and responses *)

(** A BSON ObjectId is twelve bytes; it is kept as the number those bytes
    spell, and printed by [str] as 24 lowercase hexadecimal digits. *)
Definition ObjectId := N.

(** [datetime.now(timezone.utc)] readings. *)
Definition datetime := Z.

Inductive value :=
  | VNone
  | VInt (z : Z)
  | VStr (s : string)
  | VOid (o : ObjectId)
  | VTime (t : datetime)
  | VDict (d : list (string * Z)).

#[global] Instance value_eq_dec : EqDecision value.
Proof. solve_decision. Defined.

(** A Python dict with string keys whose insertion order is observable
    (a JSON response, a [stat_reward]). *)
Definition pydict (A : Type) := list (string * A).

(** Exceptions the routes can end in.  Only [HTTPException] carries an
    HTTP status of its own; FastAPI turns the others into a 500. *)
Inductive exn :=
  | HTTPException (status_code : Z) (detail : string)
  | InvalidId
  | TypeError
  | ValueError
  | WriteError.

#[global] Instance exn_eq_dec : EqDecision exn.
Proof. solve_decision. Defined.

Inductive result (A : Type) :=
  | Ok (a : A)
  | Raise (e : exn).
Arguments Ok {A} a.
Arguments Raise {A} e.

(** ** Builtins: [str], [int], [repr] *)

Module Py.

Definition ascii_code (c : ascii) : N := N_of_ascii c.

Definition is_digit (c : ascii) : bool :=
  (48 <=? ascii_code c)%N && (ascii_code c <=? 57)%N.

Definition is_space (c : ascii) : bool :=
  let n := ascii_code c in
  (n =? 32)%N || ((9 <=? n)%N && (n <=? 13)%N).

Definition digit_value (c : ascii) : Z := Z.of_N (ascii_code c - 48).

Fixpoint lstrip (s : string) : string :=
  match s with
  | String c s' => if is_space c then lstrip s' else s
  | EmptyString => s
  end.

(** Digits of a decimal literal, most significant first; single
    underscores may separate digits.  [prev] tells whether the
    previous character was a digit. *)
Fixpoint digits (s : string) (acc : Z) (prev : bool) : option Z :=
  match s with
  | EmptyString => if prev then Some acc else None
  | String c s' =>
      if is_digit c then digits s' (10 * acc + digit_value c) true
      else if Ascii.eqb c "_" then
        if prev then
          match s' with
          | String d _ => if is_digit d then digits s' acc false else None
          | EmptyString => None
          end
        else None
      else if is_space c then
        if prev && String.eqb (lstrip s') "" then Some acc else None
      else None
  end.

(** [int(s)] for a [str] holding an ASCII decimal literal. *)
Definition int_of_str (s : string) : option Z :=
  match lstrip s with
  | String "-" s' => Z.opp <$> digits s' 0 false
  | String "+" s' => digits s' 0 false
  | s' => digits s' 0 false
  end.

(** [int(v)]: identity on an [int], parses a [str], [TypeError] on
    [None], an [ObjectId] or a [datetime]. *)
Definition int (v : value) : result Z :=
  match v with
  | VInt z => Ok z
  | VStr s => match int_of_str s with
              | Some z => Ok z
              | None => Raise ValueError
              end
  | VNone | VOid _ | VTime _ | VDict _ => Raise TypeError
  end.

(** [str(n)] and [f"{n}"] for an [int]. *)
Definition str_int (z : Z) : string := pretty z.

Definition hex_digit (n : N) : ascii :=
  match String.get (N.to_nat n) "0123456789abcdef" with
  | Some c => c
  | None => "0"%char
  end.

(** [width] hexadecimal digits of [n], least significant last. *)
Fixpoint hex_fixed (width : nat) (n : N) (acc : string) : string :=
  match width with
  | O => acc
  | S w => hex_fixed w (n / 16)%N (String (hex_digit (n mod 16)%N) acc)
  end.

Definition dquote : ascii := "034"%char.
Definition squote : ascii := "'"%char.
Definition backslash : ascii := "\"%char.

Fixpoint contains (c : ascii) (s : string) : bool :=
  match s with
  | EmptyString => false
  | String d s' => Ascii.eqb c d || contains c s'
  end.

Definition repr_char (quote c : ascii) : string :=
  let n := ascii_code c in
  if Ascii.eqb c quote || Ascii.eqb c backslash then
    String backslash (String c "")
  else if (n =? 9)%N then "\t"
  else if (n =? 10)%N then "\n"
  else if (n =? 13)%N then "\r"
  else if (n <? 32)%N || (n =? 127)%N then "\x" ++ hex_fixed 2 n ""
  else String c "".

Fixpoint repr_chars (quote : ascii) (s : string) : string :=
  match s with
  | EmptyString => ""
  | String c s' => repr_char quote c ++ repr_chars quote s'
  end.

(** [repr(s)] for a [str]: single quotes unless the text has a single
    quote and no double quote; bytes of non-ASCII characters are kept. *)
Definition repr_str (s : string) : string :=
  let quote :=
    if contains squote s && negb (contains dquote s) then dquote
    else squote in
  String quote (repr_chars quote s ++ String quote "").

Fixpoint join (sep : string) (l : list string) : string :=
  match l with
  | [] => ""
  | [x] => x
  | x :: l' => x ++ sep ++ join sep l'
  end.

(** [repr(d)] (and [f"{d}"]) for a dict of [str] keys and [int] values. *)
Definition repr_dict (d : pydict Z) : string :=
  "{" ++ join ", " (map (λ kv, repr_str kv.1 ++ ": " ++ str_int kv.2) d)
      ++ "}".

(** [d.get(k, default)] on an insertion-ordered dict. *)
Fixpoint get {A} (d : pydict A) (k : string) : option A :=
  match d with
  | [] => None
  | (k', v) :: d' => if String.eqb k k' then Some v else get d' k
  end.

(** [d[k] = v] on an insertion-ordered dict. *)
Fixpoint set {A} (d : pydict A) (k : string) (v : A) : pydict A :=
  match d with
  | [] => [(k, v)]
  | (k', v') :: d' =>
      if String.eqb k k' then (k, v) :: d' else (k', v') :: set d' k v
  end.

End Py.

(** ** ObjectId: [str(oid)] and [ObjectId(s)] *)

Module Bson.

Definition str (o : ObjectId) : string := Py.hex_fixed 24 o "".

Definition hex_value (c : ascii) : option N :=
  let n := Py.ascii_code c in
  if Py.is_digit c then Some (n - 48)%N
  else if (97 <=? n)%N && (n <=? 102)%N then Some (n - 87)%N
  else if (65 <=? n)%N && (n <=? 70)%N then Some (n - 55)%N
  else None.

Fixpoint of_hex (s : string) (acc : N) : option N :=
  match s with
  | EmptyString => Some acc
  | String c s' =>
      match hex_value c with
      | Some d => of_hex s' (16 * acc + d)%N
      | None => None
      end
  end.

(** [ObjectId(s)] for a [str]: 24 hexadecimal characters, else
    [InvalidId]. *)
Definition parse (s : string) : result ObjectId :=
  if (String.length s =? 24)%nat then
    match of_hex s 0%N with
    | Some o => Ok o
    | None => Raise InvalidId
    end
  else Raise InvalidId.

End Bson.

(** ** Utilities of [main.py] *)

Definition LEVEL_STEP : Z := 100.

Definition RANKS : list string :=
  ["E"; "D"; "C"; "B"; "A"; "S"; "Shadow Monarch"].

Definition compute_rank (level : Z) : string :=
  if (30 <=? level)%Z then "Shadow Monarch"
  else if (25 <=? level)%Z then "S"
  else if (20 <=? level)%Z then "A"
  else if (15 <=? level)%Z then "B"
  else if (10 <=? level)%Z then "C"
  else if (5 <=? level)%Z then "D"
  else "E".

(** The rollover loop of [claim_quest]:
<<
    while new_exp >= LEVEL_STEP:
        new_exp -= LEVEL_STEP
        level += 1
        leveled_up = True
>>
    returning the final [(new_exp, level, leveled_up)]. *)
Equations? level_loop (new_exp level : Z) (leveled_up : bool)
  : Z * Z * bool by wf (Z.to_nat new_exp) lt :=
  level_loop new_exp level leveled_up with Z_ge_dec new_exp LEVEL_STEP => {
    | left _ => level_loop (new_exp - LEVEL_STEP) (level + 1) true;
    | right _ => (new_exp, level, leveled_up) }.
Proof. unfold LEVEL_STEP in *. lia. Qed.

(** ** Documents (cf. [schemas.py]) *)

Module Hunter.
Record t := mk {
  _id : ObjectId;
  display_name : string;
  email : option string;
  rank : string;
  level : Z;
  exp : Z;
  total_exp : Z;
  energy : Z;
  title : option string;
  created_at : datetime;
  updated_at : datetime }.

#[global] Instance eq_dec : EqDecision t.
Proof. solve_decision. Defined.

(** The fields written by the [$set] of [claim_quest]. *)
Definition set_progress (exp' total_exp' level' : Z) (rank' : string)
    (updated_at' : datetime) (h : t) : t :=
  mk (_id h) (display_name h) (email h) rank' level' exp' total_exp'
     (energy h) (title h) (created_at h) updated_at'.
End Hunter.

Module Quest.
Record t := mk {
  _id : ObjectId;
  hunter_id : string;
  title : string;
  description : option string;
  type : string;
  exp_reward : Z;
  stat_reward : option (pydict Z);
  status : string;
  due_date : option datetime;
  created_at : datetime;
  updated_at : datetime }.

#[global] Instance eq_dec : EqDecision t.
Proof. solve_decision. Defined.

(** [{"$set": {"status": ..., "updated_at": ...}}] *)
Definition set_status (status' : string) (updated_at' : datetime) (q : t) : t :=
  mk (_id q) (hunter_id q) (title q) (description q) (type q)
     (exp_reward q) (stat_reward q) status' (due_date q) (created_at q)
     updated_at'.
End Quest.

Module Log.
Record t := mk {
  _id : ObjectId;
  hunter_id : string;
  message : string;
  level : string;
  created_at : datetime }.

#[global] Instance eq_dec : EqDecision t.
Proof. solve_decision. Defined.
End Log.

(** A Stats document is addressed by keys computed at run time
    ([stats[k]] for the keys of a [stat_reward]), so it stays a dict. *)
Abbreviation StatsDoc := (gmap string value).

(** ** The document store *)

Module db.
(** The four collections in insertion order, the next ObjectId the
    driver hands out and the clock [datetime.now] reads. *)
Record t := mk {
  hunter : list Hunter.t;
  stats : list StatsDoc;
  quest : list Quest.t;
  log : list Log.t;
  next_oid : ObjectId;
  clock : datetime }.

Definition empty : t := mk [] [] [] [] 0%N 0.
End db.

(** A collection handle [db["name"]]. *)
Record collection (A : Type) := {
  docs : db.t → list A;
  store : list A → db.t → db.t }.
Arguments docs {A} c s.
Arguments store {A} c l s.

Definition hunter_coll : collection Hunter.t :=
  {| docs := db.hunter;
     store l s := db.mk l (db.stats s) (db.quest s) (db.log s)
                        (db.next_oid s) (db.clock s) |}.
Definition stats_coll : collection StatsDoc :=
  {| docs := db.stats;
     store l s := db.mk (db.hunter s) l (db.quest s) (db.log s)
                        (db.next_oid s) (db.clock s) |}.
Definition quest_coll : collection Quest.t :=
  {| docs := db.quest;
     store l s := db.mk (db.hunter s) (db.stats s) l (db.log s)
                        (db.next_oid s) (db.clock s) |}.
Definition log_coll : collection Log.t :=
  {| docs := db.log;
     store l s := db.mk (db.hunter s) (db.stats s) (db.quest s) l
                        (db.next_oid s) (db.clock s) |}.

(** ** Routes run in a state-and-exception monad over the store.
    A raised exception keeps the writes made before it: nothing is
    rolled back. *)

Definition M (A : Type) : Type := db.t → result A * db.t.

Definition ret {A} (a : A) : M A := λ s, (Ok a, s).

Definition bind {A B} (m : M A) (k : A → M B) : M B :=
  λ s, match m s with
       | (Ok a, s') => k a s'
       | (Raise e, s') => (Raise e, s')
       end.

Definition raise {A} (e : exn) : M A := λ s, (Raise e, s).

Definition lift {A} (r : result A) : M A := λ s, (r, s).

Notation "x <- m ;; k" := (bind m (λ x, k))
  (at level 100, m at next level, right associativity).
Notation "m ;;; k" := (bind m (λ _, k))
  (at level 100, right associativity).

(** [datetime.now(timezone.utc)]: reads the clock, which then advances. *)
Definition now : M datetime :=
  λ s, (Ok (db.clock s),
        db.mk (db.hunter s) (db.stats s) (db.quest s) (db.log s)
              (db.next_oid s) (db.clock s + 1)).

Fixpoint update_first {A} (flt : A → bool) (f : A → A) (c : list A) : list A :=
  match c with
  | [] => []
  | d :: c' => if flt d then f d :: c' else d :: update_first flt f c'
  end.

(** [coll.find_one(filter)]: the first matching document or [None]. *)
Definition find_one {A} (c : collection A) (flt : A → bool) : M (option A) :=
  λ s, (Ok (List.find flt (docs c s)), s).

(** [coll.insert_one(doc).inserted_id]: the driver gives the document a
    fresh [_id]. *)
Definition insert_one {A} (c : collection A) (doc : ObjectId → A) : M ObjectId :=
  λ s, let o := db.next_oid s in
       let s' := store c (docs c s ++ [doc o]) s in
       (Ok o, db.mk (db.hunter s') (db.stats s') (db.quest s') (db.log s')
                    (o + 1)%N (db.clock s')).

(** [coll.update_one(filter, {"$set": ...})] on the first match. *)
Definition update_one {A} (c : collection A) (flt : A → bool) (f : A → A) : M unit :=
  λ s, (Ok (), store c (update_first flt f (docs c s)) s).

(** Equality filter [{key: v}] on a dict document. *)
Definition field_is (key : string) (v : value) (d : StatsDoc) : bool :=
  bool_decide (d !! key = Some v).

(** [db["stats"].update_one({key: v}, {"$set": fields}, upsert=True)].
    The first match gets the fields; [_id] may only be set to the value
    it has.  Without a match a document is inserted, made of the filter's
    equality and the fields, with a fresh [_id] unless the fields name one. *)
Definition upsert_set (key : string) (v : value) (fields : StatsDoc) : M unit :=
  λ s,
    match List.find (field_is key v) (db.stats s) with
    | Some d =>
        match fields !! "_id" with
        | Some i =>
            if decide (d !! "_id" = Some i)
            then update_one stats_coll (field_is key v) (λ d, fields ∪ d) s
            else (Raise WriteError, s)
        | None => update_one stats_coll (field_is key v) (λ d, fields ∪ d) s
        end
    | None =>
        let doc := fields ∪ {[ key := v ]} in
        match doc !! "_id" with
        | Some _ => (Ok (), store stats_coll (db.stats s ++ [doc]) s)
        | None =>
            (insert_one stats_coll (λ o, <[ "_id" := VOid o ]> doc) ;;; ret ()) s
        end
    end.

(** ** Serialization *)

(** Python truthiness. *)
Definition truthy (v : value) : bool :=
  match v with
  | VNone => false
  | VInt z => negb (z =? 0)%Z
  | VStr s => negb (String.eqb s "")
  | VOid _ | VTime _ => true
  | VDict d => match d with [] => false | _ => true end
  end.

Definition opt_str (o : option string) : value :=
  match o with Some s => VStr s | None => VNone end.

Definition str_id (obj : value) : value :=
  match obj with
  | VOid o => VStr (Bson.str o)
  | _ => obj
  end.

Fixpoint pop (k : string) (d : pydict value) : pydict value :=
  match d with
  | [] => []
  | (k', v) :: d' => if String.eqb k k' then d' else (k', v) :: pop k d'
  end.

Definition serialize (doc : pydict value) : pydict value :=
  match doc with
  | [] => doc
  | _ =>
      match Py.get doc "_id" with
      | Some i => if truthy i then Py.set (pop "_id" doc) "id" (str_id i) else doc
      | None => doc
      end
  end.

Definition hunter_dict (h : Hunter.t) : pydict value :=
  [ ("_id", VOid (Hunter._id h));
    ("display_name", VStr (Hunter.display_name h));
    ("email", opt_str (Hunter.email h));
    ("rank", VStr (Hunter.rank h));
    ("level", VInt (Hunter.level h));
    ("exp", VInt (Hunter.exp h));
    ("total_exp", VInt (Hunter.total_exp h));
    ("energy", VInt (Hunter.energy h));
    ("title", opt_str (Hunter.title h));
    ("created_at", VTime (Hunter.created_at h));
    ("updated_at", VTime (Hunter.updated_at h)) ].

(** ** Request models *)

Record HunterCreate := {
  hc_display_name : string;
  hc_email : option string }.

Record QuestCreate := {
  qc_hunter_id : string;
  qc_title : string;
  qc_description : option string;
  qc_type : string;
  qc_exp_reward : Z;
  qc_stat_reward : option (pydict Z);
  qc_due_date : option datetime }.

Definition quest_dict (q : Quest.t) : pydict value :=
  [ ("_id", VOid (Quest._id q));
    ("hunter_id", VStr (Quest.hunter_id q));
    ("title", VStr (Quest.title q));
    ("description", opt_str (Quest.description q));
    ("type", VStr (Quest.type q));
    ("exp_reward", VInt (Quest.exp_reward q));
    ("stat_reward",
       match Quest.stat_reward q with Some d => VDict d | None => VNone end);
    ("due_date",
       match Quest.due_date q with Some t => VTime t | None => VNone end);
    ("status", VStr (Quest.status q));
    ("created_at", VTime (Quest.created_at q));
    ("updated_at", VTime (Quest.updated_at q)) ].

(** ** Routes *)

Definition hunter_by_id (o : ObjectId) (h : Hunter.t) : bool :=
  bool_decide (Hunter._id h = o).
Definition quest_by_id (o : ObjectId) (q : Quest.t) : bool :=
  bool_decide (Quest._id q = o).

(** [POST /api/hunter] *)
Definition create_or_get_hunter (payload : HunterCreate) : M (pydict value) :=
  (* Try to find by email if provided, else by display name *)
  let query : Hunter.t → bool :=
    match hc_email payload with
    | Some e =>
        if truthy (VStr e)
        then λ h, bool_decide (Hunter.email h = Some e)
        else λ h, bool_decide (Hunter.display_name h = hc_display_name payload)
    | None => λ h, bool_decide (Hunter.display_name h = hc_display_name payload)
    end in
  existing <- find_one hunter_coll query ;;
  match existing with
  | Some h => ret (serialize (hunter_dict h))
  | None =>
      created_at <- now ;;
      updated_at <- now ;;
      let hunter_doc o :=
        Hunter.mk o (hc_display_name payload) (hc_email payload)
                  "E" 1 0 0 100 None created_at updated_at in
      res_id <- insert_one hunter_coll hunter_doc ;;
      (* default stats *)
      created_at <- now ;;
      updated_at <- now ;;
      insert_one stats_coll (λ o,
        <[ "_id" := VOid o ]>
        (<[ "hunter_id" := VStr (Bson.str res_id) ]>
        (<[ "STR" := VInt 1 ]> (<[ "INT" := VInt 1 ]> (<[ "DEX" := VInt 1 ]>
        (<[ "STA" := VInt 1 ]> (<[ "LUK" := VInt 1 ]>
        (<[ "created_at" := VTime created_at ]>
        (<[ "updated_at" := VTime updated_at ]> ∅))))))))) ;;;
      (* welcome log *)
      created_at <- now ;;
      insert_one log_coll (λ o,
        Log.mk o (Bson.str res_id) "System: You have awakened as a Hunter."
               "success" created_at) ;;;
      ret (serialize (hunter_dict (hunter_doc res_id)))
  end.

(** [GET /api/hunter/{hunter_id}] *)
Definition get_hunter (hunter_id : string) : M (pydict value) :=
  oid <- lift (Bson.parse hunter_id) ;;
  doc <- find_one hunter_coll (hunter_by_id oid) ;;
  match doc with
  | None => raise (HTTPException 404 "Hunter not found")
  | Some h => ret (serialize (hunter_dict h))
  end.

(** [POST /api/quests] *)
Definition create_quest (payload : QuestCreate) : M (pydict value) :=
  created_at <- now ;;
  updated_at <- now ;;
  let quest o :=
    Quest.mk o (qc_hunter_id payload) (qc_title payload)
             (qc_description payload) (qc_type payload)
             (qc_exp_reward payload) (qc_stat_reward payload) "pending"
             (qc_due_date payload) created_at updated_at in
  res <- insert_one quest_coll quest ;;
  log_at <- now ;;
  insert_one log_coll (λ o,
    Log.mk o (qc_hunter_id payload)
           ("System: Registered new quest — " ++ qc_title payload)
           "info" log_at) ;;;
  ret (serialize (quest_dict (quest res))).

(** [POST /api/quests/{quest_id}/complete] *)
Definition complete_quest (quest_id : string) : M (pydict value) :=
  oid <- lift (Bson.parse quest_id) ;;
  q <- find_one quest_coll (quest_by_id oid) ;;
  match q with
  | None => raise (HTTPException 404 "Quest not found")
  | Some q =>
      if String.eqb (Quest.status q) "completed"
         || String.eqb (Quest.status q) "claimed"
      then ret [("status", VStr (Quest.status q))]
      else
        updated_at <- now ;;
        update_one quest_coll (quest_by_id (Quest._id q))
                   (Quest.set_status "completed" updated_at) ;;;
        created_at <- now ;;
        insert_one log_coll (λ o,
          Log.mk o (Quest.hunter_id q)
                 ("Quest completed: " ++ Quest.title q)
                 "success" created_at) ;;;
        ret [("status", VStr "completed")]
  end.

(** The stat loop of [claim_quest]:
<<
    for k, v in stat_reward.items():
        stats[k] = int(stats.get(k, 0)) + int(v)
>>
*)
Fixpoint stat_loop (items : pydict Z) (stats : StatsDoc) : result StatsDoc :=
  match items with
  | [] => Ok stats
  | (k, v) :: items' =>
      match Py.int (default (VInt 0) (stats !! k)) with
      | Ok n => stat_loop items' (<[ k := VInt (n + v) ]> stats)
      | Raise e => Raise e
      end
  end.

Definition nonempty {A} (l : list A) : bool :=
  match l with [] => false | _ => true end.

(** [POST /api/quests/{quest_id}/claim] *)
Definition claim_quest (quest_id : string) : M (pydict value) :=
  oid <- lift (Bson.parse quest_id) ;;
  q <- find_one quest_coll (quest_by_id oid) ;;
  match q with
  | None => raise (HTTPException 404 "Quest not found")
  | Some q =>
      if String.eqb (Quest.status q) "claimed"
      then ret [("status", VStr "claimed")]
      else
        (* Award EXP and stats *)
        hid <- lift (Bson.parse (Quest.hunter_id q)) ;;
        hunter <- find_one hunter_coll (hunter_by_id hid) ;;
        match hunter with
        | None => raise (HTTPException 404 "Hunter not found")
        | Some hunter =>
            let new_total := Hunter.total_exp hunter + Quest.exp_reward q in
            let new_exp := Hunter.exp hunter + Quest.exp_reward q in
            let level := Hunter.level hunter in
            let '(new_exp, level, leveled_up) :=
              level_loop new_exp level false in
            let new_rank := compute_rank level in
            updated_at <- now ;;
            update_one hunter_coll (hunter_by_id (Hunter._id hunter))
              (Hunter.set_progress new_exp new_total level new_rank
                                   updated_at) ;;;
            (* Apply stat rewards *)
            let stat_reward := default [] (Quest.stat_reward q) in
            let hunter_key := VStr (Bson.str (Hunter._id hunter)) in
            (if nonempty stat_reward then
               found <- find_one stats_coll (field_is "hunter_id" hunter_key) ;;
               let stats := default {[ "hunter_id" := hunter_key ]} found in
               stats <- lift (stat_loop stat_reward stats) ;;
               updated_at <- now ;;
               upsert_set "hunter_id" hunter_key
                          (<[ "updated_at" := VTime updated_at ]> stats)
             else ret ()) ;;;
            (* Mark quest claimed *)
            updated_at <- now ;;
            update_one quest_coll (quest_by_id (Quest._id q))
                       (Quest.set_status "claimed" updated_at) ;;;
            (* Logs *)
            (if leveled_up then
               created_at <- now ;;
               insert_one log_coll (λ o,
                 Log.mk o (Bson.str (Hunter._id hunter))
                   ("Level Up! You are now Level " ++ Py.str_int level
                    ++ " — Rank " ++ new_rank ++ ".")
                   "success" created_at) ;;;
               ret ()
             else ret ()) ;;;
            created_at <- now ;;
            insert_one log_coll (λ o,
              Log.mk o (Bson.str (Hunter._id hunter))
                ("Rewards claimed: +" ++ Py.str_int (Quest.exp_reward q)
                 ++ " EXP"
                 ++ (if nonempty stat_reward
                     then ", +" ++ Py.repr_dict stat_reward ++ " stats"
                     else ""))
                "info" created_at) ;;;
            ret [ ("status", VStr "claimed"); ("level", VInt level);
                  ("rank", VStr new_rank); ("exp", VInt new_exp);
                  ("total_exp", VInt new_total) ]
        end
  end.

(** ** The remaining routes *)

(** [serialize] on a document kept as a map (a Stats document). *)
Definition serialize_map (doc : StatsDoc) : StatsDoc :=
  if decide (doc = ∅) then doc
  else
    match doc !! "_id" with
    | Some i => if truthy i then <[ "id" := str_id i ]> (delete "_id" doc)
                else doc
    | None => doc
    end.

(** [not doc] for what [find_one] returns: [None] or an empty dict. *)
Definition falsy_doc (doc : option StatsDoc) : bool :=
  match doc with
  | None => true
  | Some d => bool_decide (d = ∅)
  end.

(** [GET /api/stats] *)
Definition get_stats (hunter_id : string) : M StatsDoc :=
  doc <- find_one stats_coll (field_is "hunter_id" (VStr hunter_id)) ;;
  if falsy_doc doc then
    (* Initialize if missing *)
    created_at <- now ;;
    updated_at <- now ;;
    let doc : StatsDoc :=
      <[ "hunter_id" := VStr hunter_id ]>
      (<[ "STR" := VInt 1 ]> (<[ "INT" := VInt 1 ]> (<[ "DEX" := VInt 1 ]>
      (<[ "STA" := VInt 1 ]> (<[ "LUK" := VInt 1 ]>
      (<[ "created_at" := VTime created_at ]>
      (<[ "updated_at" := VTime updated_at ]> ∅))))))) in
    res <- insert_one stats_coll (λ o, <[ "_id" := VOid o ]> doc) ;;
    ret (serialize_map (<[ "_id" := VOid res ]> doc))
  else ret (serialize_map (default ∅ doc)).

(** [cursor.sort("created_at", -1)]: newest first.  The store is free in
    how it orders documents of equal [created_at]. *)
Definition newer_first {A} (created_at : A → datetime) (a b : A) : Prop :=
  created_at b ≤ created_at a.

#[global] Instance newer_first_dec {A} (created_at : A → datetime) a b :
  Decision (newer_first created_at a b).
Proof. unfold newer_first. apply _. Defined.

Definition sort_newest_first {A} (created_at : A → datetime)
  : list A → list A :=
  merge_sort (newer_first created_at).

(** [cursor.limit(n)]: [0] means no limit, and the driver sends the
    absolute value of a negative one. *)
Definition cursor_limit {A} (n : Z) (l : list A) : list A :=
  if (n =? 0)%Z then l else take (Z.to_nat (Z.abs n)) l.

(** [GET /api/quests]: [flt] is [{"hunter_id": hunter_id}], with
    ["type"] added when [type] is truthy.  A stored quest is read through
    its record, so an optional field that a document lacks (the
    [description] and [due_date] of a seeded quest) shows as [None] in the
    listing. *)
Definition list_quests (hunter_id : string) (type : option string)
  : M (list (pydict value)) :=
  let flt (q : Quest.t) : bool :=
    bool_decide (Quest.hunter_id q = hunter_id)
    && match type with
       | Some ty => if truthy (VStr ty)
                    then bool_decide (Quest.type q = ty) else true
       | None => true
       end in
  λ s,
    let docs := sort_newest_first Quest.created_at
                  (List.filter flt (db.quest s)) in
    (Ok (map (λ d, serialize (quest_dict d)) docs), s).

Definition log_dict (l : Log.t) : pydict value :=
  [ ("_id", VOid (Log._id l));
    ("hunter_id", VStr (Log.hunter_id l));
    ("message", VStr (Log.message l));
    ("level", VStr (Log.level l));
    ("created_at", VTime (Log.created_at l)) ].

(** [GET /api/logs] *)
Definition get_logs (hunter_id : string) (limit : Z)
  : M (list (pydict value)) :=
  λ s,
    let cur :=
      cursor_limit limit
        (sort_newest_first Log.created_at
           (List.filter (λ l, bool_decide (Log.hunter_id l = hunter_id))
                        (db.log s))) in
    (Ok (map (λ d, serialize (log_dict d)) cur), s).

(** An entry of [samples] in [seed_dailies]. *)
Record Sample := {
  sample_title : string;
  sample_type : string;
  sample_exp_reward : Z;
  sample_stat_reward : pydict Z }.

Definition samples : list Sample :=
  [ {| sample_title := "Study 1 hour"; sample_type := "daily";
       sample_exp_reward := 25; sample_stat_reward := [("INT", 1)] |};
    {| sample_title := "Workout 30 mins"; sample_type := "daily";
       sample_exp_reward := 30;
       sample_stat_reward := [("STR", 1); ("STA", 1)] |};
    {| sample_title := "Read 20 pages"; sample_type := "daily";
       sample_exp_reward := 20; sample_stat_reward := [("INT", 1)] |} ].

(** The document [seed_dailies] inserts for a sample; it has no
    [description] and no [due_date]. *)
Definition seed_quest (hunter_id : string) (sm : Sample)
    (created_at updated_at : datetime) (o : ObjectId) : Quest.t :=
  Quest.mk o hunter_id (sample_title sm) None (sample_type sm)
           (sample_exp_reward sm) (Some (sample_stat_reward sm)) "pending"
           None created_at updated_at.

(** [payload], with the [_id] the insert gave it. *)
Definition seed_payload (hunter_id : string) (sm : Sample)
    (created_at updated_at : datetime) (o : ObjectId) : pydict value :=
  [ ("hunter_id", VStr hunter_id);
    ("title", VStr (sample_title sm));
    ("type", VStr (sample_type sm));
    ("exp_reward", VInt (sample_exp_reward sm));
    ("stat_reward", VDict (sample_stat_reward sm));
    ("status", VStr "pending");
    ("created_at", VTime created_at);
    ("updated_at", VTime updated_at);
    ("_id", VOid o) ].

(** The loop of [seed_dailies]:
<<
    for s in samples:
        payload = {...}
        res = db["quest"].insert_one(payload)
        payload["_id"] = res.inserted_id
        created.append(serialize(payload))
>>
*)
Fixpoint seed_loop (hunter_id : string) (todo : list Sample)
    (created : list (pydict value)) : M (list (pydict value)) :=
  match todo with
  | [] => ret created
  | sm :: todo' =>
      created_at <- now ;;
      updated_at <- now ;;
      res <- insert_one quest_coll
               (seed_quest hunter_id sm created_at updated_at) ;;
      seed_loop hunter_id todo'
        (created ++ [serialize (seed_payload hunter_id sm created_at
                                            updated_at res)])
  end.

(** [POST /api/seed/dailies] *)
Definition seed_dailies (hunter_id : string) : M (list (pydict value)) :=
  created <- seed_loop hunter_id samples [] ;;
  created_at <- now ;;
  insert_one log_coll (λ o,
    Log.mk o hunter_id "System: Daily quests generated." "info"
           created_at) ;;;
  ret created.

(** * Vocabulary of the statements *)

(** ** The blocks of [claim_quest] *)

(** The "Apply stat rewards" block of [claim_quest]. *)
Definition stat_phase (hunter_key : value) (stat_reward : pydict Z) : M unit :=
  if nonempty stat_reward then
    found <- find_one stats_coll (field_is "hunter_id" hunter_key) ;;
    let stats := default {[ "hunter_id" := hunter_key ]} found in
    stats <- lift (stat_loop stat_reward stats) ;;
    updated_at <- now ;;
    upsert_set "hunter_id" hunter_key
               (<[ "updated_at" := VTime updated_at ]> stats)
  else ret ().

Definition level_up_log (h : Hunter.t) (level : Z) (o : ObjectId)
    (t : datetime) : Log.t :=
  Log.mk o (Bson.str (Hunter._id h))
    ("Level Up! You are now Level " ++ Py.str_int level
     ++ " — Rank " ++ compute_rank level ++ ".")
    "success" t.

Definition reward_log (h : Hunter.t) (q : Quest.t) (o : ObjectId)
    (t : datetime) : Log.t :=
  Log.mk o (Bson.str (Hunter._id h))
    ("Rewards claimed: +" ++ Py.str_int (Quest.exp_reward q) ++ " EXP"
     ++ (if nonempty (default [] (Quest.stat_reward q))
         then ", +" ++ Py.repr_dict (default [] (Quest.stat_reward q))
              ++ " stats"
         else ""))
    "info" t.

(** The log entries a claim appends, given the store they are appended to. *)
Definition claim_logs (q : Quest.t) (h : Hunter.t) (level : Z)
    (leveled_up : bool) (s : db.t) : list Log.t :=
  if leveled_up then
    [ level_up_log h level (db.next_oid s) (db.clock s + 1);
      reward_log h q (db.next_oid s + 1)%N (db.clock s + 2) ]
  else [ reward_log h q (db.next_oid s) (db.clock s + 1) ].

(** The store after the "Mark quest claimed" and "Logs" blocks. *)
Definition claimed_state (q : Quest.t) (h : Hunter.t) (level : Z)
    (leveled_up : bool) (s : db.t) : db.t :=
  db.mk (db.hunter s) (db.stats s)
    (update_first (quest_by_id (Quest._id q))
                  (Quest.set_status "claimed" (db.clock s)) (db.quest s))
    (db.log s ++ claim_logs q h level leveled_up s)
    (db.next_oid s + (if leveled_up then 2 else 1))%N
    (db.clock s + (if leveled_up then 3 else 2)).

(** The store after the hunter's [$set]. *)
Definition awarded_state (q : Quest.t) (h : Hunter.t) (new_exp level : Z)
    (s : db.t) : db.t :=
  db.mk (update_first (hunter_by_id (Hunter._id h))
           (Hunter.set_progress new_exp
              (Hunter.total_exp h + Quest.exp_reward q) level
              (compute_rank level) (db.clock s))
           (db.hunter s))
        (db.stats s) (db.quest s) (db.log s) (db.next_oid s) (db.clock s + 1).

Definition claim_response (q : Quest.t) (h : Hunter.t) (new_exp level : Z)
  : pydict value :=
  [ ("status", VStr "claimed"); ("level", VInt level);
    ("rank", VStr (compute_rank level)); ("exp", VInt new_exp);
    ("total_exp", VInt (Hunter.total_exp h + Quest.exp_reward q)) ].

(** A quest that is found and not yet claimed, whose hunter is found. *)
Record claimable (s : db.t) (quest_id : string) (q : Quest.t) (h : Hunter.t)
  : Prop := {
  claimable_quest :
    ∃ oid, Bson.parse quest_id = Ok oid
           ∧ List.find (quest_by_id oid) (db.quest s) = Some q;
  claimable_status : Quest.status q ≠ "claimed";
  claimable_hunter :
    ∃ hid, Bson.parse (Quest.hunter_id q) = Ok hid
           ∧ List.find (hunter_by_id hid) (db.hunter s) = Some h }.

(** ** Stats documents and their counters *)

(** Keys of a Stats document that hold its metadata; every other key is a
    counter. *)
Definition reserved_keys : list string :=
  ["_id"; "hunter_id"; "created_at"; "updated_at"].

(** The integer a counter stands at, [0] when it is missing. *)
Definition counter (d : StatsDoc) (k : string) : Z :=
  match d !! k with
  | Some (VInt c) => c
  | _ => 0
  end.

(** Outside its metadata, a Stats document holds integers. *)
Definition counters_are_int (d : StatsDoc) : Prop :=
  ∀ k v, d !! k = Some v → k ∉ reserved_keys → ∃ c, v = VInt c.

(** The dict handed to [$set]: the merged counters, stamped. *)
Definition fields_of (t : datetime) (m : StatsDoc) : StatsDoc :=
  <["updated_at" := VTime t]> m.

(** ** The ways [claim_quest] can end *)

Inductive claim_outcome (s : db.t) (quest_id : string)
  : result (pydict value) * db.t → Prop :=
  | claim_bad_quest_id :
      Bson.parse quest_id = Raise InvalidId →
      claim_outcome s quest_id (Raise InvalidId, s)
  | claim_no_quest oid :
      Bson.parse quest_id = Ok oid →
      List.find (quest_by_id oid) (db.quest s) = None →
      claim_outcome s quest_id
        (Raise (HTTPException 404 "Quest not found"), s)
  | claim_already oid q :
      Bson.parse quest_id = Ok oid →
      List.find (quest_by_id oid) (db.quest s) = Some q →
      Quest.status q = "claimed" →
      claim_outcome s quest_id (Ok [("status", VStr "claimed")], s)
  | claim_bad_hunter_id oid q :
      Bson.parse quest_id = Ok oid →
      List.find (quest_by_id oid) (db.quest s) = Some q →
      Quest.status q ≠ "claimed" →
      Bson.parse (Quest.hunter_id q) = Raise InvalidId →
      claim_outcome s quest_id (Raise InvalidId, s)
  | claim_no_hunter oid q hid :
      Bson.parse quest_id = Ok oid →
      List.find (quest_by_id oid) (db.quest s) = Some q →
      Quest.status q ≠ "claimed" →
      Bson.parse (Quest.hunter_id q) = Ok hid →
      List.find (hunter_by_id hid) (db.hunter s) = None →
      claim_outcome s quest_id
        (Raise (HTTPException 404 "Hunter not found"), s)
  | claim_stats_failed q h new_exp level leveled_up e s2 :
      claimable s quest_id q h →
      level_loop (Hunter.exp h + Quest.exp_reward q) (Hunter.level h) false
        = (new_exp, level, leveled_up) →
      stat_phase (VStr (Bson.str (Hunter._id h)))
                 (default [] (Quest.stat_reward q))
                 (awarded_state q h new_exp level s) = (Raise e, s2) →
      claim_outcome s quest_id (Raise e, s2)
  | claim_awarded q h new_exp level leveled_up s2 :
      claimable s quest_id q h →
      level_loop (Hunter.exp h + Quest.exp_reward q) (Hunter.level h) false
        = (new_exp, level, leveled_up) →
      stat_phase (VStr (Bson.str (Hunter._id h)))
                 (default [] (Quest.stat_reward q))
                 (awarded_state q h new_exp level s) = (Ok (), s2) →
      claim_outcome s quest_id
        (Ok (claim_response q h new_exp level),
         claimed_state q h level leveled_up s2).

(** The reward's keys are counter keys, each listed once (as in any dict),
    and the hunter's Stats document, if there is one, holds integers under
    its counters. *)
Definition stat_reward_applicable (s : db.t) (q : Quest.t) (h : Hunter.t)
  : Prop :=
  let rw := default [] (Quest.stat_reward q) in
  let key := VStr (Bson.str (Hunter._id h)) in
  NoDup rw.*1
  ∧ (∀ k, k ∈ rw.*1 → k ∉ reserved_keys)
  ∧ counters_are_int
      (default {[ "hunter_id" := key ]}
         (List.find (field_is "hunter_id" key) (db.stats s))).

(** ** Ranks in order *)

(** Position of a rank in [RANKS], lowest first. *)
Fixpoint index_of (r : string) (l : list string) : nat :=
  match l with
  | [] => O
  | x :: l' => if String.eqb r x then O else S (index_of r l')
  end.

Definition rank_index (r : string) : nat := index_of r RANKS.

(** ** What [create_or_get_hunter] and [complete_quest] write *)

(** The filter [create_or_get_hunter] looks a hunter up with. *)
Definition hunter_query (payload : HunterCreate) : Hunter.t → bool :=
  match hc_email payload with
  | Some e =>
      if truthy (VStr e)
      then λ h, bool_decide (Hunter.email h = Some e)
      else λ h, bool_decide (Hunter.display_name h = hc_display_name payload)
  | None => λ h, bool_decide (Hunter.display_name h = hc_display_name payload)
  end.

(** The two filters it chooses between. *)
Definition by_email (e : string) (h : Hunter.t) : bool :=
  bool_decide (Hunter.email h = Some e).

Definition by_display_name (name : string) (h : Hunter.t) : bool :=
  bool_decide (Hunter.display_name h = name).

(** The three documents a first encounter inserts. *)
Definition new_hunter (payload : HunterCreate) (s : db.t) : Hunter.t :=
  Hunter.mk (db.next_oid s) (hc_display_name payload) (hc_email payload)
            "E" 1 0 0 100 None (db.clock s) (db.clock s + 1).

Definition new_stats (s : db.t) : StatsDoc :=
  <[ "_id" := VOid (db.next_oid s + 1)%N ]>
  (<[ "hunter_id" := VStr (Bson.str (db.next_oid s)) ]>
  (<[ "STR" := VInt 1 ]> (<[ "INT" := VInt 1 ]> (<[ "DEX" := VInt 1 ]>
  (<[ "STA" := VInt 1 ]> (<[ "LUK" := VInt 1 ]>
  (<[ "created_at" := VTime (db.clock s + 2) ]>
  (<[ "updated_at" := VTime (db.clock s + 3) ]> ∅)))))))).

Definition welcome_log (s : db.t) : Log.t :=
  Log.mk (db.next_oid s + 2)%N (Bson.str (db.next_oid s))
         "System: You have awakened as a Hunter." "success" (db.clock s + 4).

Definition created_state (payload : HunterCreate) (s : db.t) : db.t :=
  db.mk (db.hunter s ++ [new_hunter payload s])
        (db.stats s ++ [new_stats s])
        (db.quest s)
        (db.log s ++ [welcome_log s])
        (db.next_oid s + 3)%N (db.clock s + 5).

(** The invariant of a hunter document. *)
Definition hunter_inv (h : Hunter.t) : Prop :=
  Hunter.rank h = compute_rank (Hunter.level h) ∧ Hunter.exp h < LEVEL_STEP.

Definition completion_log (q : Quest.t) (s : db.t) : Log.t :=
  Log.mk (db.next_oid s) (Quest.hunter_id q)
         ("Quest completed: " ++ Quest.title q) "success" (db.clock s + 1).

Definition completed_state (q : Quest.t) (s : db.t) : db.t :=
  db.mk (db.hunter s) (db.stats s)
        (update_first (quest_by_id (Quest._id q))
                      (Quest.set_status "completed" (db.clock s)) (db.quest s))
        (db.log s ++ [completion_log q s])
        (db.next_oid s + 1)%N (db.clock s + 2).

(** ** Stores and requests of the worked scenarios *)

(** A quest registered for a hunter id that is not an ObjectId. *)
Definition stray_quest : QuestCreate :=
  {| qc_hunter_id := "shadow"; qc_title := "Run 5 km";
     qc_description := None; qc_type := "daily"; qc_exp_reward := 20;
     qc_stat_reward := None; qc_due_date := None |}.

(** Hunter at level 1 with exp 95, a pending quest worth 250 EXP and two
    points of STR, and the Stats document create-or-get gave the hunter. *)
Definition jinwoo : Hunter.t :=
  Hunter.mk 0%N "Jinwoo" (Some "jinwoo@hunters.kr") "E" 1 95 95 100 None 0 1.

Definition gate_quest : Quest.t :=
  Quest.mk 3%N "000000000000000000000000" "Clear the gate" None "dungeon"
           250 (Some [("STR", 2)]) "pending" None 5 6.

Definition gate_quest_id : string := "000000000000000000000003".

Definition s95 : db.t :=
  db.mk [jinwoo] [new_stats db.empty] [gate_quest] [] 4%N 7.

(** The same store once the quest has been claimed. *)
Definition s345 : db.t := (claim_quest gate_quest_id s95).2.

(** A quest whose hunter id is well formed but names nobody. *)
Definition orphan_quest : Quest.t :=
  Quest.mk 0%N "00000000000000000000beef" "Lost errand" None "daily"
           20 None "pending" None 0 1.

Definition s_orphan : db.t := db.mk [] [] [orphan_quest] [] 1%N 2.

(** A decidable form of [counters_are_int]. *)
Definition is_int (v : value) : bool :=
  match v with VInt _ => true | _ => false end.

Definition counters_are_intb (d : StatsDoc) : bool :=
  forallb (λ kv, bool_decide (kv.1 ∈ reserved_keys) || is_int kv.2)
          (map_to_list d).

(** ** Requests, and the stores they lead to *)

(** A call of one of the routes. *)
Inductive request :=
  | CreateOrGetHunter (payload : HunterCreate)
  | GetHunter (hunter_id : string)
  | GetStats (hunter_id : string)
  | CreateQuest (payload : QuestCreate)
  | ListQuests (hunter_id : string) (type : option string)
  | CompleteQuest (quest_id : string)
  | ClaimQuest (quest_id : string)
  | GetLogs (hunter_id : string) (limit : Z)
  | SeedDailies (hunter_id : string).

(** The store a request leaves behind, whether it returns or raises. *)
Definition run (r : request) (s : db.t) : db.t :=
  match r with
  | CreateOrGetHunter payload => (create_or_get_hunter payload s).2
  | GetHunter hunter_id => (get_hunter hunter_id s).2
  | GetStats hunter_id => (get_stats hunter_id s).2
  | CreateQuest payload => (create_quest payload s).2
  | ListQuests hunter_id type => (list_quests hunter_id type s).2
  | CompleteQuest quest_id => (complete_quest quest_id s).2
  | ClaimQuest quest_id => (claim_quest quest_id s).2
  | GetLogs hunter_id limit => (get_logs hunter_id limit s).2
  | SeedDailies hunter_id => (seed_dailies hunter_id s).2
  end.

(** What request validation guarantees before a route runs:
    [exp_reward: int = Field(default=20, ge=0)] in [QuestCreate]. *)
Definition validated (r : request) : Prop :=
  match r with
  | CreateQuest payload => 0 ≤ qc_exp_reward payload
  | _ => True
  end.

(** The stores the API can be in, starting from empty collections. *)
Inductive reachable : db.t → Prop :=
  | reach_empty : reachable db.empty
  | reach_step s r : reachable s → validated r → reachable (run r s).

(** ** What the remaining routes write *)

Definition lazy_stats (hunter_id : string) (s : db.t) : StatsDoc :=
  <[ "_id" := VOid (db.next_oid s) ]>
  (<[ "hunter_id" := VStr hunter_id ]>
  (<[ "STR" := VInt 1 ]> (<[ "INT" := VInt 1 ]> (<[ "DEX" := VInt 1 ]>
  (<[ "STA" := VInt 1 ]> (<[ "LUK" := VInt 1 ]>
  (<[ "created_at" := VTime (db.clock s) ]>
  (<[ "updated_at" := VTime (db.clock s + 1) ]> ∅)))))))).

Definition stats_created_state (hunter_id : string) (s : db.t) : db.t :=
  db.mk (db.hunter s) (db.stats s ++ [lazy_stats hunter_id s]) (db.quest s)
        (db.log s) (db.next_oid s + 1)%N (db.clock s + 2).

Definition new_quest (payload : QuestCreate) (s : db.t) : Quest.t :=
  Quest.mk (db.next_oid s) (qc_hunter_id payload) (qc_title payload)
           (qc_description payload) (qc_type payload)
           (qc_exp_reward payload) (qc_stat_reward payload) "pending"
           (qc_due_date payload) (db.clock s) (db.clock s + 1).

Definition registration_log (payload : QuestCreate) (s : db.t) : Log.t :=
  Log.mk (db.next_oid s + 1)%N (qc_hunter_id payload)
         ("System: Registered new quest — " ++ qc_title payload)
         "info" (db.clock s + 2).

Definition quest_created_state (payload : QuestCreate) (s : db.t) : db.t :=
  db.mk (db.hunter s) (db.stats s) (db.quest s ++ [new_quest payload s])
        (db.log s ++ [registration_log payload s])
        (db.next_oid s + 2)%N (db.clock s + 3).

(** The quests the loop of [seed_dailies] inserts for a list of samples,
    from a given clock reading and next id on, and the payloads it
    serializes. *)
Fixpoint seed_quests_from (hunter_id : string) (todo : list Sample)
    (t : datetime) (o : ObjectId) : list Quest.t :=
  match todo with
  | [] => []
  | sm :: todo' =>
      seed_quest hunter_id sm t (t + 1) o
        :: seed_quests_from hunter_id todo' (t + 2) (o + 1)%N
  end.

Fixpoint seed_payloads_from (hunter_id : string) (todo : list Sample)
    (t : datetime) (o : ObjectId) : list (pydict value) :=
  match todo with
  | [] => []
  | sm :: todo' =>
      seed_payload hunter_id sm t (t + 1) o
        :: seed_payloads_from hunter_id todo' (t + 2) (o + 1)%N
  end.

Definition seeded_quests (hunter_id : string) (s : db.t) : list Quest.t :=
  seed_quests_from hunter_id samples (db.clock s) (db.next_oid s).

Definition seed_response (hunter_id : string) (s : db.t)
  : list (pydict value) :=
  map serialize
      (seed_payloads_from hunter_id samples (db.clock s) (db.next_oid s)).

Definition seed_log (hunter_id : string) (s : db.t) : Log.t :=
  Log.mk (db.next_oid s + 3)%N hunter_id "System: Daily quests generated."
         "info" (db.clock s + 6).

Definition seeded_state (hunter_id : string) (s : db.t) : db.t :=
  db.mk (db.hunter s) (db.stats s)
        (db.quest s ++ seeded_quests hunter_id s)
        (db.log s ++ [seed_log hunter_id s])
        (db.next_oid s + 4)%N (db.clock s + 7).

(** ** What holds of every reachable store *)

(** A hunter's level, exp and rank as functions of the lifetime total. *)
Definition progress_of_total (h : Hunter.t) : Prop :=
  0 ≤ Hunter.total_exp h
  ∧ Hunter.level h = 1 + Hunter.total_exp h / LEVEL_STEP
  ∧ Hunter.exp h = Hunter.total_exp h mod LEVEL_STEP
  ∧ Hunter.rank h = compute_rank (Hunter.level h)
  ∧ Hunter.energy h = 100.

Definition lifecycle_status (status : string) : Prop :=
  status = "pending" ∨ status = "completed" ∨ status = "claimed".

(** Ids are below the next one to hand out, and no two documents of a
    collection share one; hunters and quests are as the routes write
    them. *)
Record store_ok (s : db.t) : Prop := {
  ok_hunter_ids : Forall (λ h, (Hunter._id h < db.next_oid s)%N) (db.hunter s);
  ok_hunter_nodup : NoDup (Hunter._id <$> db.hunter s);
  ok_quest_ids : Forall (λ q, (Quest._id q < db.next_oid s)%N) (db.quest s);
  ok_quest_nodup : NoDup (Quest._id <$> db.quest s);
  ok_log_ids : Forall (λ l, (Log._id l < db.next_oid s)%N) (db.log s);
  ok_log_nodup : NoDup (Log._id <$> db.log s);
  ok_progress : Forall progress_of_total (db.hunter s);
  ok_rewards : Forall (λ q, 0 ≤ Quest.exp_reward q) (db.quest s);
  ok_status : Forall (λ q, lifecycle_status (Quest.status q)) (db.quest s) }.

(** ** Stores and requests of the scenarios for the other routes *)

Definition demo_hunter : request :=
  CreateOrGetHunter
    {| hc_display_name := "Jinwoo"; hc_email := Some "jinwoo@hunters.kr" |}.

Definition demo_quest : request :=
  CreateQuest
    {| qc_hunter_id := "000000000000000000000000";
       qc_title := "Clear the gate"; qc_description := None;
       qc_type := "dungeon"; qc_exp_reward := 250;
       qc_stat_reward := Some [("STR", 2)]; qc_due_date := None |}.

(** A reward key that meets the [created_at] field of the Stats document. *)
Definition clash_quest : request :=
  CreateQuest
    {| qc_hunter_id := "000000000000000000000000";
       qc_title := "Cursed errand"; qc_description := None;
       qc_type := "daily"; qc_exp_reward := 40;
       qc_stat_reward := Some [("created_at", 1)]; qc_due_date := None |}.

(** A hunter, then a quest for that hunter (ids 0 and 3). *)
Definition s_quest : db.t := run demo_quest (run demo_hunter db.empty).
Definition s_clash : db.t := run clash_quest (run demo_hunter db.empty).
(** The same once the quest has been claimed. *)
Definition s_claimed : db.t := run (ClaimQuest "000000000000000000000003") s_quest.

Definition gate_quest_claimed : Quest.t :=
  Quest.mk 3%N "000000000000000000000000" "Clear the gate" None "dungeon"
           250 (Some [("STR", 2)]) "claimed" None 5 10.

Definition demo_hunter_doc : Hunter.t :=
  Hunter.mk 0%N "Jinwoo" (Some "jinwoo@hunters.kr") "E" 1 0 0 100 None 0 1.

Definition demo_quest_doc : Quest.t :=
  Quest.mk 3%N "000000000000000000000000" "Clear the gate" None "dungeon"
           250 (Some [("STR", 2)]) "pending" None 5 6.

Definition clash_quest_doc : Quest.t :=
  Quest.mk 3%N "000000000000000000000000" "Cursed errand" None "daily"
           40 (Some [("created_at", 1)]) "pending" None 5 6.

(** * Properties *)

(** ** The rollover loop *)

Lemma level_loop_closed_form new_exp level leveled_up :
  level_loop new_exp level leveled_up =
    if (new_exp <? LEVEL_STEP)%Z then (new_exp, level, leveled_up)
    else (new_exp mod LEVEL_STEP, level + new_exp / LEVEL_STEP, true).
Proof.
  funelim (level_loop new_exp level leveled_up).
  - match goal with IH : level_loop _ _ _ = if _ then _ else _ |- _ =>
      rewrite IH end.
    unfold LEVEL_STEP in *.
    destruct (Z.ltb_spec (new_exp - 100) 100), (Z.ltb_spec new_exp 100);
      try lia; f_equal; try f_equal; Z.div_mod_to_equations; lia.
  - unfold LEVEL_STEP in *.
    destruct (Z.ltb_spec new_exp 100); [reflexivity | lia].
Qed.

Lemma level_loop_bound new_exp level leveled_up :
  (level_loop new_exp level leveled_up).1.1 < LEVEL_STEP.
Proof.
  rewrite level_loop_closed_form. unfold LEVEL_STEP.
  destruct (Z.ltb_spec new_exp 100); simpl; [lia |].
  apply Z.mod_pos_bound. lia.
Qed.

(** The flag tells exactly whether the level went up. *)
Lemma level_loop_flag new_exp level :
  (level_loop new_exp level false).2 = true ↔
  level < (level_loop new_exp level false).1.2.
Proof.
  rewrite level_loop_closed_form. unfold LEVEL_STEP.
  destruct (Z.ltb_spec new_exp 100); simpl.
  - split; [discriminate | lia].
  - split; [intros _ | reflexivity]. Z.div_mod_to_equations; lia.
Qed.

(** ** Collections *)

Section collections.
Context {A : Type} (flt : A → bool) (f : A → A).

Lemma find_update_first c x :
  List.find flt c = Some x → flt (f x) = true →
  List.find flt (update_first flt f c) = Some (f x).
Proof.
  intros Hfind Hkeep. induction c as [|d c IH]; simpl in *; [discriminate |].
  destruct (flt d) eqn:Hd.
  - injection Hfind as ->. simpl. by rewrite Hkeep.
  - simpl. rewrite Hd. auto.
Qed.

Lemma update_first_length c :
  length (update_first flt f c) = length c.
Proof.
  induction c as [|d c IH]; simpl; [done |].
  destruct (flt d); simpl; auto.
Qed.

(** Every document after the update is an old one or a written one. *)
Lemma update_first_Forall (P : A → Prop) c :
  (∀ x, flt x = true → P (f x)) →
  Forall (λ d, In d c ∨ P d) (update_first flt f c).
Proof.
  intros Hf. induction c as [|d c IH]; simpl; [constructor |].
  destruct (flt d) eqn:Hd.
  - constructor; [right; auto |].
    apply Forall_forall. intros y Hy. left. right.
    by apply list_elem_of_In.
  - constructor; [left; by left |].
    eapply Forall_impl; [exact IH |]. simpl. intros y [Hy | Hy]; auto.
Qed.

Lemma find_app_miss c c' :
  List.find flt c = None → List.find flt (c ++ c') = List.find flt c'.
Proof.
  induction c as [|d c IH]; simpl; [done |].
  destruct (flt d); [discriminate | auto].
Qed.

End collections.

Lemma find_hunter_by_id o c h :
  List.find (hunter_by_id o) c = Some h → Hunter._id h = o.
Proof.
  intros H. apply find_some in H as [_ H].
  unfold hunter_by_id in H. by apply bool_decide_eq_true in H.
Qed.

Lemma find_quest_by_id o c q :
  List.find (quest_by_id o) c = Some q → Quest._id q = o.
Proof.
  intros H. apply find_some in H as [_ H].
  unfold quest_by_id in H. by apply bool_decide_eq_true in H.
Qed.

(** ** The claim path, block by block *)

Lemma claim_quest_found s quest_id q h new_exp level leveled_up :
  claimable s quest_id q h →
  level_loop (Hunter.exp h + Quest.exp_reward q) (Hunter.level h) false
    = (new_exp, level, leveled_up) →
  claim_quest quest_id s =
    match stat_phase (VStr (Bson.str (Hunter._id h)))
                     (default [] (Quest.stat_reward q))
                     (awarded_state q h new_exp level s) with
    | (Ok _, s2) =>
        (Ok (claim_response q h new_exp level),
         claimed_state q h level leveled_up s2)
    | (Raise e, s2) => (Raise e, s2)
    end.
Proof.
  intros [(oid & Hp & Hq) Hs (hid & Hh & Hf)] Hloop.
  unfold claim_quest, bind, lift, find_one. rewrite Hp. simpl. rewrite Hq.
  destruct (String.eqb_spec (Quest.status q) "claimed"); [done |].
  rewrite Hh. simpl. rewrite Hf, Hloop.
  unfold stat_phase, bind, lift, find_one, now, update_one, insert_one, ret.
  simpl. fold (awarded_state q h new_exp level s).
  match goal with
  | |- _ = match ?X with _ => _ end => destruct X as [[[]|e] s2]
  end; [| reflexivity].
  unfold claimed_state, claim_logs, claim_response, level_up_log, reward_log.
  destruct leveled_up; simpl; rewrite <- ?app_assoc; simpl;
    repeat first [reflexivity | lia | progress f_equal].
Qed.

(** ** Stat accrual *)

Lemma stat_loop_counters items : ∀ stats : StatsDoc,
  NoDup items.*1 →
  (∀ k, k ∈ items.*1 → stats !! k = None ∨ ∃ c, stats !! k = Some (VInt c)) →
  ∃ new : StatsDoc,
    stat_loop items stats = Ok new
    ∧ (∀ k d, (k, d) ∈ items → new !! k = Some (VInt (counter stats k + d)))
    ∧ (∀ k, k ∉ items.*1 → new !! k = stats !! k).
Proof.
  induction items as [|[k v] items IH]; intros stats Hnd Hint.
  - exists stats. split; [done |]. split; [| done].
    intros k d Hin. inversion Hin.
  - simpl in Hnd. apply NoDup_cons in Hnd as [Hk Hnd].
    assert (Py.int (default (VInt 0) (stats !! k)) = Ok (counter stats k))
      as Hn.
    { unfold counter.
      destruct (Hint k ltac:(by left)) as [-> | [c ->]]; reflexivity. }
    simpl. rewrite Hn.
    destruct (IH (<[k := VInt (counter stats k + v)]> stats) Hnd)
      as (new & Hrun & Hlisted & Hother).
    { intros k' Hk'. rewrite lookup_insert_ne by (intros ->; done).
      apply Hint. by right. }
    exists new. split; [exact Hrun |]. split.
    + intros k' d Hin. apply elem_of_cons in Hin as [[= -> ->] | Hin].
      * rewrite (Hother _ Hk). by rewrite lookup_insert_eq.
      * rewrite (Hlisted _ _ Hin). unfold counter.
        rewrite lookup_insert_ne; [done |].
        intros ->. apply Hk. apply list_elem_of_fmap. by exists (k', d).
    + intros k' Hk'. apply not_elem_of_cons in Hk' as [Hne Hk'].
      rewrite (Hother _ Hk'). by rewrite lookup_insert_ne.
Qed.

(** The stat block writes to the Stats collection only. *)
Lemma stat_phase_frame key rw s :
  let s' := (stat_phase key rw s).2 in
  db.hunter s' = db.hunter s ∧ db.quest s' = db.quest s
  ∧ db.log s' = db.log s.
Proof.
  unfold stat_phase, bind, lift, find_one, now, upsert_set, update_one,
    insert_one, ret.
  destruct (nonempty rw); simpl; [| done].
  destruct (stat_loop _ _); simpl; [| done].
  destruct (List.find _ _); simpl.
  - destruct (_ !! "_id"); [case_decide |]; done.
  - destruct (_ !! "_id"); done.
Qed.

(** With counter keys in the reward and integers under them, the stat
    block succeeds and the hunter's Stats document holds the sums. *)
Lemma stat_phase_counters key rw s :
  rw ≠ [] → NoDup rw.*1 → (∀ k, k ∈ rw.*1 → k ∉ reserved_keys) →
  let old := default {[ "hunter_id" := key ]}
               (List.find (field_is "hunter_id" key) (db.stats s)) in
  counters_are_int old →
  ∃ (new : StatsDoc) s',
    stat_phase key rw s = (Ok (), s')
    ∧ List.find (field_is "hunter_id" key) (db.stats s') = Some new
    ∧ (∀ k d, (k, d) ∈ rw → new !! k = Some (VInt (counter old k + d)))
    ∧ (∀ k, k ∉ rw.*1 → k ∉ ["_id"; "updated_at"] → new !! k = old !! k).
Proof.
  intros Hne Hnd Hres old Hint.
  destruct (stat_loop_counters rw old Hnd) as (new0 & Hrun & Hlisted & Hother).
  { intros k Hk. destruct (old !! k) as [v|] eqn:Hv; [right | by left].
    destruct (Hint k v Hv (Hres k Hk)) as [c ->]. by exists c. }
  assert ("_id" ∉ rw.*1) as Hid.
  { intros Hk. apply (Hres _ Hk). unfold reserved_keys; rewrite !elem_of_cons; auto. }
  assert ("hunter_id" ∉ rw.*1) as Hhid.
  { intros Hk. apply (Hres _ Hk). unfold reserved_keys; rewrite !elem_of_cons; auto. }
  assert ("updated_at" ∉ rw.*1) as Hupd.
  { intros Hk. apply (Hres _ Hk). unfold reserved_keys; rewrite !elem_of_cons; auto. }
  assert (∀ k, k ≠ "updated_at" → fields_of (db.clock s) new0 !! k = new0 !! k)
    as Hfields.
  { intros k Hk. unfold fields_of. by rewrite lookup_insert_ne. }
  unfold stat_phase, bind, lift, find_one, now.
  destruct (nonempty rw) eqn:Hrw; [| by destruct rw].
  change (docs stats_coll s) with (db.stats s). fold old. rewrite Hrun.
  unfold upsert_set, update_one, insert_one, bind, ret. simpl.
  fold (fields_of (db.clock s) new0).
  set (fields := fields_of (db.clock s) new0) in *.
  destruct (List.find (field_is "hunter_id" key) (db.stats s)) as [d|] eqn:Hfind.
  - (* the hunter's Stats document exists: [old = d] *)
    simpl in old.
    assert (fields !! "_id" = d !! "_id") as Hsame.
    { rewrite Hfields by done. by apply Hother. }
    assert (∀ k, k ≠ "updated_at" → k ∉ rw.*1 → (fields ∪ d) !! k = d !! k)
      as Hkeep.
    { intros k Hk1 Hk2. rewrite lookup_union, Hfields, (Hother _ Hk2) by done.
      fold old. by destruct (old !! k). }
    assert (field_is "hunter_id" key (fields ∪ d) = true) as Hmatch.
    { apply find_some in Hfind as [_ Hd]. unfold field_is in *.
      apply bool_decide_eq_true. apply bool_decide_eq_true in Hd.
      by rewrite Hkeep. }
    exists (fields ∪ d).
    eexists. split.
    { destruct (fields !! "_id") as [i|]; [| reflexivity].
      rewrite decide_True by done. reflexivity. }
    simpl. split; [by apply (find_update_first _ (λ d, fields ∪ d)) |].
    split.
    + intros k v Hin.
      assert (k ∈ rw.*1) as Hk by (apply list_elem_of_fmap; by exists (k, v)).
      apply lookup_union_Some_l. rewrite Hfields by (by intros ->).
      by apply Hlisted.
    + intros k Hk1 Hk2. apply Hkeep; [| done].
      intros ->. apply Hk2. rewrite !elem_of_cons. auto.
  - (* no Stats document yet: one is created *)
    simpl in old.
    set (doc := fields ∪ {["hunter_id" := key]}).
    assert (∀ k, k ≠ "updated_at" → k ∉ rw.*1 → doc !! k = old !! k) as Hkeep.
    { intros k Hk1 Hk2. unfold doc.
      rewrite lookup_union, Hfields, (Hother _ Hk2) by done.
      fold old. by destruct (old !! k). }
    assert (doc !! "_id" = None) as ->.
    { rewrite Hkeep by done. done. }
    eexists. eexists. split; [reflexivity |]. simpl.
    rewrite (find_app_miss _ _ _ Hfind). simpl.
    assert (field_is "hunter_id" key (<["_id" := VOid (db.next_oid s)]> doc) = true) as ->.
    { apply bool_decide_eq_true. rewrite lookup_insert_ne by done.
      rewrite Hkeep by done. done. }
    split; [reflexivity |]. split.
    + intros k v Hin.
      assert (k ∈ rw.*1) as Hk by (apply list_elem_of_fmap; by exists (k, v)).
      rewrite lookup_insert_ne by (by intros <-).
      apply lookup_union_Some_l. rewrite Hfields by (by intros ->).
      by apply Hlisted.
    + intros k Hk1 Hk2. rewrite !elem_of_cons in Hk2.
      rewrite lookup_insert_ne by (intros <-; auto).
      apply Hkeep; [| done]. intros ->. auto.
Qed.

(** The stat block raises no [HTTPException]. *)
Lemma stat_loop_exn items : ∀ (stats : StatsDoc) e,
  stat_loop items stats = Raise e → e = TypeError ∨ e = ValueError.
Proof.
  induction items as [|[k v] items IH]; intros stats e; simpl; [done |].
  destruct (Py.int _) as [n|e'] eqn:Hint; [apply IH |].
  intros [= <-]. unfold Py.int in Hint.
  destruct (default _ _); try (injection Hint as <-; auto); try done.
  destruct (Py.int_of_str _); [done |]. injection Hint as <-; auto.
Qed.

Lemma stat_phase_exn key rw s e s' :
  stat_phase key rw s = (Raise e, s') →
  e = TypeError ∨ e = ValueError ∨ e = WriteError.
Proof.
  unfold stat_phase, bind, lift, find_one, now, upsert_set, update_one,
    insert_one, ret.
  destruct (nonempty rw); [| done].
  destruct (stat_loop _ _) eqn:Hloop; simpl.
  - destruct (List.find _ _); simpl.
    + destruct (_ !! "_id"); [case_decide |]; try done.
      intros [= <- _]. auto.
    + destruct (_ !! "_id"); done.
  - intros [= <- _]. apply stat_loop_exn in Hloop as []; auto.
Qed.

Lemma parse_cases s : (∃ o, Bson.parse s = Ok o) ∨ Bson.parse s = Raise InvalidId.
Proof.
  unfold Bson.parse. destruct (_ =? _)%nat; [| by right].
  destruct (Bson.of_hex _ _); eauto.
Qed.

(** ** Every way [claim_quest] can end *)

Lemma claim_quest_outcome s quest_id :
  claim_outcome s quest_id (claim_quest quest_id s).
Proof.
  destruct (parse_cases quest_id) as [[oid Hp] | Hp].
  2: { replace (claim_quest quest_id s) with (@Raise (pydict value) InvalidId, s);
       [by constructor |].
       unfold claim_quest, bind, lift. by rewrite Hp. }
  destruct (List.find (quest_by_id oid) (db.quest s)) as [q|] eqn:Hq.
  2: { replace (claim_quest quest_id s)
         with (@Raise (pydict value) (HTTPException 404 "Quest not found"), s);
       [by econstructor |].
       unfold claim_quest, bind, lift, find_one. rewrite Hp. simpl.
       by rewrite Hq. }
  destruct (String.eqb_spec (Quest.status q) "claimed") as [Hs | Hs].
  { replace (claim_quest quest_id s)
      with (Ok [("status", VStr "claimed")], s); [by econstructor |].
    unfold claim_quest, bind, lift, find_one. rewrite Hp. simpl.
    rewrite Hq, Hs. reflexivity. }
  assert (∀ X Y : M (pydict value),
    (if String.eqb (Quest.status q) "claimed" then X else Y) = Y) as Hif.
  { intros. by destruct (String.eqb_spec (Quest.status q) "claimed"). }
  destruct (parse_cases (Quest.hunter_id q)) as [[hid Hh] | Hh].
  2: { replace (claim_quest quest_id s) with (@Raise (pydict value) InvalidId, s);
       [by econstructor |].
       unfold claim_quest, bind, lift, find_one. rewrite Hp. simpl.
       rewrite Hq, Hif, Hh. reflexivity. }
  destruct (List.find (hunter_by_id hid) (db.hunter s)) as [h|] eqn:Hf.
  2: { replace (claim_quest quest_id s)
         with (@Raise (pydict value) (HTTPException 404 "Hunter not found"), s);
       [by econstructor |].
       unfold claim_quest, bind, lift, find_one. rewrite Hp. simpl.
       rewrite Hq, Hif, Hh. simpl. by rewrite Hf. }
  assert (claimable s quest_id q h) as Hc.
  { split; eauto. }
  destruct (level_loop (Hunter.exp h + Quest.exp_reward q) (Hunter.level h)
              false) as [[new_exp level] leveled_up] eqn:Hloop.
  rewrite (claim_quest_found _ _ _ _ _ _ _ Hc Hloop).
  destruct (stat_phase _ _ _) as [[[]|e] s2] eqn:Hstat.
  - by eapply claim_awarded.
  - by eapply claim_stats_failed.
Qed.


(** A claim whose stat block goes through: the response and the store. *)
Lemma claim_quest_succeeds s quest_id q h new_exp level leveled_up :
  claimable s quest_id q h →
  level_loop (Hunter.exp h + Quest.exp_reward q) (Hunter.level h) false
    = (new_exp, level, leveled_up) →
  stat_reward_applicable s q h →
  ∃ s2,
    stat_phase (VStr (Bson.str (Hunter._id h)))
               (default [] (Quest.stat_reward q))
               (awarded_state q h new_exp level s) = (Ok (), s2)
    ∧ claim_quest quest_id s =
        (Ok (claim_response q h new_exp level),
         claimed_state q h level leveled_up s2).
Proof.
  intros Hc Hloop (Hnd & Hres & Hint).
  rewrite (claim_quest_found _ _ _ _ _ _ _ Hc Hloop).
  destruct (default [] (Quest.stat_reward q)) as [|kv rw] eqn:Hrw.
  - eexists. split; reflexivity.
  - destruct (stat_phase_counters (VStr (Bson.str (Hunter._id h)))
                (kv :: rw) (awarded_state q h new_exp level s))
      as (new & s2 & Hrun & _); [done.. |].
    exists s2. by rewrite Hrun.
Qed.

(** The hunter document after a claim, whatever the stat block does. *)
Lemma claim_quest_hunter_written s quest_id q h new_exp level leveled_up :
  claimable s quest_id q h →
  level_loop (Hunter.exp h + Quest.exp_reward q) (Hunter.level h) false
    = (new_exp, level, leveled_up) →
  db.hunter (claim_quest quest_id s).2 =
    update_first (hunter_by_id (Hunter._id h))
      (Hunter.set_progress new_exp (Hunter.total_exp h + Quest.exp_reward q)
         level (compute_rank level) (db.clock s))
      (db.hunter s).
Proof.
  intros Hc Hloop. rewrite (claim_quest_found _ _ _ _ _ _ _ Hc Hloop).
  pose proof (stat_phase_frame (VStr (Bson.str (Hunter._id h)))
                (default [] (Quest.stat_reward q))
                (awarded_state q h new_exp level s)) as (Hh & _ & _).
  destruct (stat_phase _ _ _) as [[[]|e] s2]; simpl in *; exact Hh.
Qed.

Lemma claimable_hunter_found s quest_id q h :
  claimable s quest_id q h →
  List.find (hunter_by_id (Hunter._id h)) (db.hunter s) = Some h.
Proof.
  intros [_ _ (hid & _ & Hf)].
  by rewrite (find_hunter_by_id _ _ _ Hf).
Qed.

(** ** C1: level rollover *)

(** C1.  For a hunter at any level [L] with current-level exp
    [0 ≤ E < 100] and lifetime exp [T], claiming a quest whose reward
    [R] is non-negative runs the repeated-subtraction loop to
    [newExp = (E+R) mod 100] and [newLevel = L + (E+R)/100] (so one reward
    can cross several levels), stores these with [newTotalExp = T + R]
    in the hunter document, and answers with them. *)
Theorem claim_quest_level_rollover s quest_id q h :
  claimable s quest_id q h →
  0 ≤ Hunter.exp h < LEVEL_STEP →
  0 ≤ Quest.exp_reward q →
  let L := Hunter.level h in
  let E := Hunter.exp h in
  let T := Hunter.total_exp h in
  let R := Quest.exp_reward q in
  let newLevel := L + (E + R) / 100 in
  let newExp := (E + R) mod 100 in
  let newTotalExp := T + R in
  let response :=
    [ ("status", VStr "claimed"); ("level", VInt newLevel);
      ("rank", VStr (compute_rank newLevel)); ("exp", VInt newExp);
      ("total_exp", VInt newTotalExp) ] in
  level_loop (E + R) L false = (newExp, newLevel, (LEVEL_STEP <=? E + R)%Z)
  ∧ List.find (hunter_by_id (Hunter._id h))
              (db.hunter (claim_quest quest_id s).2)
    = Some (Hunter.set_progress newExp newTotalExp newLevel
              (compute_rank newLevel) (db.clock s) h)
  ∧ (∀ resp, (claim_quest quest_id s).1 = Ok resp → resp = response)
  ∧ (stat_reward_applicable s q h →
     (claim_quest quest_id s).1 = Ok response).
Proof.
  intros Hc HE HR L E T R newLevel newExp newTotalExp response.
  assert (level_loop (E + R) L false
          = (newExp, newLevel, (LEVEL_STEP <=? E + R)%Z)) as Hloop.
  { rewrite level_loop_closed_form. subst newExp newLevel E R.
    unfold LEVEL_STEP in *.
    destruct (Z.ltb_spec (Hunter.exp h + Quest.exp_reward q) 100),
             (Z.leb_spec 100 (Hunter.exp h + Quest.exp_reward q));
      try lia; [| reflexivity].
    rewrite Z.mod_small, Z.div_small by lia. f_equal. f_equal. lia. }
  split; [exact Hloop |]. split; [| split].
  - rewrite (claim_quest_hunter_written _ _ _ _ _ _ _ Hc Hloop).
    apply find_update_first; [exact (claimable_hunter_found _ _ _ _ Hc) |].
    unfold hunter_by_id. by apply bool_decide_eq_true.
  - intros resp. rewrite (claim_quest_found _ _ _ _ _ _ _ Hc Hloop).
    destruct (stat_phase _ _ _) as [[[]|e] s2]; simpl; [| done].
    by intros [= <-].
  - intros Happ.
    destruct (claim_quest_succeeds _ _ _ _ _ _ _ Hc Hloop Happ)
      as (s2 & _ & ->). reflexivity.
Qed.

(** ** C2: claiming twice *)

(** C2.  Claiming a quest whose status is already "claimed" changes
    nothing in the store (hunter, Stats, quest and log included) and
    answers [{"status": "claimed"}]; a quest still "pending" can be claimed
    directly: the reward is granted and the quest becomes "claimed". *)
Theorem claim_quest_idempotent s quest_id oid q :
  Bson.parse quest_id = Ok oid →
  List.find (quest_by_id oid) (db.quest s) = Some q →
  (Quest.status q = "claimed" →
   claim_quest quest_id s = (Ok [("status", VStr "claimed")], s))
  ∧ (Quest.status q = "pending" →
     ∀ h, claimable s quest_id q h → stat_reward_applicable s q h →
     ∃ resp s',
       claim_quest quest_id s = (Ok resp, s')
       ∧ Py.get resp "status" = Some (VStr "claimed")
       ∧ Py.get resp "total_exp"
         = Some (VInt (Hunter.total_exp h + Quest.exp_reward q))
       ∧ (Quest.status <$> List.find (quest_by_id oid) (db.quest s'))
         = Some "claimed").
Proof.
  intros Hp Hq. split.
  - intros Hs. unfold claim_quest, bind, lift, find_one.
    rewrite Hp. simpl. rewrite Hq, Hs. reflexivity.
  - intros Hs h Hc Happ.
    destruct (level_loop (Hunter.exp h + Quest.exp_reward q) (Hunter.level h)
                false) as [[new_exp level] leveled_up] eqn:Hloop.
    destruct (claim_quest_succeeds _ _ _ _ _ _ _ Hc Hloop Happ)
      as (s2 & Hstat & Hrun).
    do 2 eexists. split; [exact Hrun |]. do 2 (split; [reflexivity |]).
    pose proof (stat_phase_frame (VStr (Bson.str (Hunter._id h)))
                  (default [] (Quest.stat_reward q))
                  (awarded_state q h new_exp level s)) as (_ & Hquest & _).
    rewrite Hstat in Hquest. simpl in Hquest. simpl. rewrite Hquest.
    rewrite (find_quest_by_id _ _ _ Hq).
    erewrite find_update_first; [reflexivity | exact Hq |].
    unfold quest_by_id. apply bool_decide_eq_true. simpl.
    exact (find_quest_by_id _ _ _ Hq).
Qed.

(** ** C3: rank thresholds *)

(** C3, as the claim words its first boundary: level 29 would be rank
    "A".  The code gives "S", as the claim's own threshold list does. *)
Lemma compute_rank_29_is_not_A : compute_rank 29 = "S" ∧ compute_rank 29 ≠ "A".
Proof. split; [reflexivity | discriminate]. Qed.

(** C3 (amended).  [compute_rank] depends on the level alone, never
    decreases when the level grows, and follows the thresholds checked from
    the highest down: 30 "Shadow Monarch", 25 "S", 20 "A", 15 "B", 10 "C",
    5 "D", else "E".  At the boundaries: 29 is "S" and 30 "Shadow Monarch",
    24 is "A", 4 is "E" and 5 is "D". *)
Theorem compute_rank_thresholds :
  (∀ l1 l2 : Z, l1 ≤ l2 →
     (rank_index (compute_rank l1) ≤ rank_index (compute_rank l2))%nat)
  ∧ (∀ level, compute_rank level = "Shadow Monarch" ↔ 30 ≤ level)
  ∧ (∀ level, compute_rank level = "S" ↔ 25 ≤ level < 30)
  ∧ (∀ level, compute_rank level = "A" ↔ 20 ≤ level < 25)
  ∧ (∀ level, compute_rank level = "B" ↔ 15 ≤ level < 20)
  ∧ (∀ level, compute_rank level = "C" ↔ 10 ≤ level < 15)
  ∧ (∀ level, compute_rank level = "D" ↔ 5 ≤ level < 10)
  ∧ (∀ level, compute_rank level = "E" ↔ level < 5)
  ∧ compute_rank 29 = "S" ∧ compute_rank 30 = "Shadow Monarch"
  ∧ compute_rank 24 = "A" ∧ compute_rank 4 = "E" ∧ compute_rank 5 = "D".
Proof.
  split.
  { intros l1 l2 Hle. unfold compute_rank.
    destruct (Z.leb_spec 30 l1), (Z.leb_spec 25 l1), (Z.leb_spec 20 l1),
      (Z.leb_spec 15 l1), (Z.leb_spec 10 l1), (Z.leb_spec 5 l1); try lia;
    destruct (Z.leb_spec 30 l2), (Z.leb_spec 25 l2), (Z.leb_spec 20 l2),
      (Z.leb_spec 15 l2), (Z.leb_spec 10 l2), (Z.leb_spec 5 l2); try lia;
    vm_compute; lia. }
  repeat split; try reflexivity; unfold compute_rank in *;
    destruct (Z.leb_spec 30 level), (Z.leb_spec 25 level),
      (Z.leb_spec 20 level), (Z.leb_spec 15 level), (Z.leb_spec 10 level),
      (Z.leb_spec 5 level);
    intros; try lia; try discriminate; reflexivity.
Qed.

(** ** Creating a hunter, in one step *)

Lemma create_or_get_hunter_run s payload :
  create_or_get_hunter payload s =
    match List.find (hunter_query payload) (db.hunter s) with
    | Some h => (Ok (serialize (hunter_dict h)), s)
    | None => (Ok (serialize (hunter_dict (new_hunter payload s))),
               created_state payload s)
    end.
Proof.
  destruct s as [hs ss qs ls o t].
  unfold create_or_get_hunter. cbv zeta. unfold bind at 1. unfold find_one.
  cbn [docs hunter_coll]. unfold hunter_query.
  destruct (List.find _ _); [reflexivity |].
  cbv [bind now insert_one ret store docs hunter_coll stats_coll log_coll
       db.hunter db.stats db.quest db.log db.next_oid db.clock].
  unfold created_state, new_hunter, new_stats, welcome_log.
  cbn [db.hunter db.stats db.quest db.log db.next_oid db.clock].
  repeat first [reflexivity | lia | progress f_equal].
Qed.

(** ** C4: the hunter invariant *)

Lemma Forall_old_docs {A} (P : A → Prop) (c : list A) :
  Forall (λ d, In d c ∨ P d) c.
Proof. apply Forall_forall. intros d Hd. left. by apply list_elem_of_In. Qed.

Lemma claim_quest_hunters s quest_id :
  db.hunter (claim_quest quest_id s).2 = db.hunter s
  ∨ ∃ q h new_exp level leveled_up,
      claimable s quest_id q h
      ∧ level_loop (Hunter.exp h + Quest.exp_reward q) (Hunter.level h) false
        = (new_exp, level, leveled_up)
      ∧ db.hunter (claim_quest quest_id s).2 =
          update_first (hunter_by_id (Hunter._id h))
            (Hunter.set_progress new_exp
               (Hunter.total_exp h + Quest.exp_reward q) level
               (compute_rank level) (db.clock s))
            (db.hunter s).
Proof.
  destruct (claim_quest_outcome s quest_id)
    as [ | | | | | q h new_exp level leveled_up e s2 Hc Hloop Hstat
         | q h new_exp level leveled_up s2 Hc Hloop Hstat ];
    try (by left); right; exists q, h, new_exp, level, leveled_up;
    (split; [exact Hc |]); (split; [exact Hloop |]);
    pose proof (stat_phase_frame (VStr (Bson.str (Hunter._id h)))
                  (default [] (Quest.stat_reward q))
                  (awarded_state q h new_exp level s)) as (Hh & _ & _);
    rewrite Hstat in Hh; exact Hh.
Qed.

(** C4.  A hunter document written by create-or-get or by claim has
    [rank = compute_rank(level)] and [exp < LEVEL_STEP]: the one
    create-or-get inserts is (rank "E", level 1, exp 0), claim writes exp,
    level and rank in one [$set], and every other hunter document is left as
    it was; so the invariant, once true of the store, stays true. *)
Theorem hunter_invariant_maintained :
  (∀ s payload,
     let s' := (create_or_get_hunter payload s).2 in
     db.hunter s' = db.hunter s
     ∨ ∃ h, db.hunter s' = (db.hunter s ++ [h])%list
            ∧ Hunter.rank h = "E" ∧ Hunter.level h = 1 ∧ Hunter.exp h = 0
            ∧ hunter_inv h)
  ∧ (∀ s quest_id,
       Forall (λ h, In h (db.hunter s) ∨ hunter_inv h)
              (db.hunter (claim_quest quest_id s).2))
  ∧ (∀ s quest_id q h,
       claimable s quest_id q h →
       ∃ h', List.find (hunter_by_id (Hunter._id h))
                       (db.hunter (claim_quest quest_id s).2) = Some h'
             ∧ hunter_inv h')
  ∧ (∀ s payload,
       Forall hunter_inv (db.hunter s) →
       Forall hunter_inv (db.hunter (create_or_get_hunter payload s).2))
  ∧ (∀ s quest_id,
       Forall hunter_inv (db.hunter s) →
       Forall hunter_inv (db.hunter (claim_quest quest_id s).2)).
Proof.
  assert (∀ new_exp level leveled_up e0 l0 total t h,
            level_loop e0 l0 false = (new_exp, level, leveled_up) →
            hunter_inv (Hunter.set_progress new_exp total level
                          (compute_rank level) t h)) as Hset.
  { intros new_exp level leveled_up e0 l0 total t h Hloop.
    split; [reflexivity |]. simpl.
    pose proof (level_loop_bound e0 l0 false) as Hb.
    by rewrite Hloop in Hb. }
  assert (∀ s payload,
     let s' := (create_or_get_hunter payload s).2 in
     db.hunter s' = db.hunter s
     ∨ ∃ h, db.hunter s' = (db.hunter s ++ [h])%list
            ∧ Hunter.rank h = "E" ∧ Hunter.level h = 1 ∧ Hunter.exp h = 0
            ∧ hunter_inv h) as Hcreate.
  { intros s payload.
    rewrite create_or_get_hunter_run.
    destruct (List.find _ _); [by left |].
    right. exists (new_hunter payload s). by repeat split. }
  assert (∀ s quest_id,
       Forall (λ h, In h (db.hunter s) ∨ hunter_inv h)
              (db.hunter (claim_quest quest_id s).2)) as Hclaim.
  { intros s quest_id.
    destruct (claim_quest_hunters s quest_id)
      as [-> | (q & h & new_exp & level & leveled_up & _ & Hloop & ->)].
    - apply Forall_old_docs.
    - apply update_first_Forall. intros x _. by eapply Hset. }
  split; [exact Hcreate |]. split; [exact Hclaim |]. split; [| split].
  - intros s quest_id q h Hc.
    destruct (level_loop (Hunter.exp h + Quest.exp_reward q) (Hunter.level h)
                false) as [[new_exp level] leveled_up] eqn:Hloop.
    rewrite (claim_quest_hunter_written _ _ _ _ _ _ _ Hc Hloop).
    eexists. split.
    + apply find_update_first; [exact (claimable_hunter_found _ _ _ _ Hc) |].
      unfold hunter_by_id. by apply bool_decide_eq_true.
    + by eapply Hset.
  - intros s payload Hinv.
    destruct (Hcreate s payload) as [-> | (h & -> & _ & _ & _ & Hh)];
      [done |].
    apply Forall_app. split; [done | by constructor].
  - intros s quest_id Hinv.
    eapply Forall_impl; [apply Hclaim |]. simpl.
    intros h [Hold | Hnew]; [| done].
    rewrite Forall_forall in Hinv. apply Hinv. by apply list_elem_of_In.
Qed.

(** ** C5: stat accrual *)


(** ** C6: completing a quest *)

(** C6.  Completing a quest that is already "completed" or "claimed"
    answers with its current status and leaves the whole store as it was (no
    log entry, no new timestamp); completing any other quest sets its status
    to "completed", stamps [updated_at], appends the success log
    "Quest completed: {title}" and touches nothing else. *)
Theorem complete_quest_idempotent s quest_id oid q :
  Bson.parse quest_id = Ok oid →
  List.find (quest_by_id oid) (db.quest s) = Some q →
  (Quest.status q = "completed" ∨ Quest.status q = "claimed" →
   complete_quest quest_id s = (Ok [("status", VStr (Quest.status q))], s))
  ∧ (Quest.status q ≠ "completed" → Quest.status q ≠ "claimed" →
     ∃ s' entry,
       complete_quest quest_id s = (Ok [("status", VStr "completed")], s')
       ∧ List.find (quest_by_id oid) (db.quest s')
         = Some (Quest.set_status "completed" (db.clock s) q)
       ∧ db.log s' = (db.log s ++ [entry])%list
       ∧ Log.message entry = "Quest completed: " ++ Quest.title q
       ∧ Log.level entry = "success"
       ∧ Log.hunter_id entry = Quest.hunter_id q
       ∧ db.hunter s' = db.hunter s ∧ db.stats s' = db.stats s
       ∧ length (db.quest s') = length (db.quest s)).
Proof.
  intros Hp Hq. split.
  - intros Hs. unfold complete_quest, bind, lift, find_one.
    rewrite Hp. simpl. rewrite Hq.
    destruct Hs as [Hs | Hs]; rewrite Hs; reflexivity.
  - intros Hs1 Hs2.
    exists (completed_state q s), (completion_log q s).
    split; [| split].
    + destruct s as [hs ss qs ls o t].
      unfold complete_quest, bind, lift, find_one. rewrite Hp. simpl.
      simpl in Hq. rewrite Hq.
      destruct (String.eqb_spec (Quest.status q) "completed"); [done |].
      destruct (String.eqb_spec (Quest.status q) "claimed"); [done |].
      unfold completed_state, completion_log. simpl.
      repeat first [reflexivity | lia | progress f_equal].
    + simpl. rewrite (find_quest_by_id _ _ _ Hq).
      apply find_update_first; [exact Hq |].
      unfold quest_by_id. apply bool_decide_eq_true. simpl.
      exact (find_quest_by_id _ _ _ Hq).
    + simpl. repeat split; try reflexivity. apply update_first_length.
Qed.

(** ** C7: when a claim fails *)



(** ** C8: log entries of a claim *)

(** C8.  A claim that awards its reward appends the info entry
    "Rewards claimed: ..." last, preceded by one success entry
    "Level Up! ..." exactly when the hunter's level went up: two new entries
    when a level boundary was crossed, one otherwise. *)
Theorem claim_quest_log_entries s quest_id q h resp s' :
  claimable s quest_id q h →
  claim_quest quest_id s = (Ok resp, s') →
  ∃ new_level entries info,
    Py.get resp "level" = Some (VInt new_level)
    ∧ (Hunter.level <$> List.find (hunter_by_id (Hunter._id h)) (db.hunter s'))
      = Some new_level
    ∧ db.log s' = (db.log s ++ entries ++ [info])%list
    ∧ Log.level info = "info"
    ∧ Log.message info = Log.message (reward_log h q 0%N 0)
    ∧ (Hunter.level h < new_level →
       (∃ up, entries = [up] ∧ Log.level up = "success"
              ∧ Log.message up =
                  "Level Up! You are now Level " ++ Py.str_int new_level
                  ++ " — Rank " ++ compute_rank new_level ++ ".")
       ∧ length (db.log s') = (length (db.log s) + 2)%nat)
    ∧ (¬ Hunter.level h < new_level →
       entries = [] ∧ length (db.log s') = (length (db.log s) + 1)%nat).
Proof.
  intros Hc Hrun.
  destruct (level_loop (Hunter.exp h + Quest.exp_reward q) (Hunter.level h)
              false) as [[new_exp level] leveled_up] eqn:Hloop.
  pose proof (level_loop_flag (Hunter.exp h + Quest.exp_reward q)
                (Hunter.level h)) as Hflag.
  rewrite Hloop in Hflag. simpl in Hflag.
  pose proof (claim_quest_hunter_written _ _ _ _ _ _ _ Hc Hloop) as Hhunters.
  rewrite Hrun in Hhunters. simpl in Hhunters.
  rewrite (claim_quest_found _ _ _ _ _ _ _ Hc Hloop) in Hrun.
  pose proof (stat_phase_frame (VStr (Bson.str (Hunter._id h)))
                (default [] (Quest.stat_reward q))
                (awarded_state q h new_exp level s)) as (_ & _ & Hlog).
  destruct (stat_phase _ _ _) as [[[]|e] s2]; [| discriminate].
  injection Hrun as <- <-. simpl in Hlog.
  exists level,
    (if leveled_up
     then [level_up_log h level (db.next_oid s2) (db.clock s2 + 1)] else []),
    (reward_log h q (if leveled_up then db.next_oid s2 + 1 else db.next_oid s2)%N
                (if leveled_up then db.clock s2 + 2 else db.clock s2 + 1)).
  split; [reflexivity |]. split.
  { rewrite Hhunters.
    erewrite find_update_first;
      [reflexivity | exact (claimable_hunter_found _ _ _ _ Hc) |].
    unfold hunter_by_id. by apply bool_decide_eq_true. }
  split.
  { simpl. rewrite Hlog. unfold claim_logs. by destruct leveled_up. }
  do 2 (split; [reflexivity |]).
  assert (length (db.log (claimed_state q h level leveled_up s2))
          = length (db.log s) + (if leveled_up then 2 else 1))%nat as Hlen.
  { simpl. rewrite Hlog, length_app. unfold claim_logs.
    by destruct leveled_up. }
  split.
  - intros Hup. apply Hflag in Hup. subst leveled_up.
    split; [| exact Hlen]. eexists. by repeat split.
  - intros Hsame. destruct leveled_up; [| by split].
    exfalso. apply Hsame. by apply Hflag.
Qed.

(** ** C9: create-or-get *)

(** C9, as the claim words it, at the empty email: two calls with the
    same email [""] and different display names create two hunters and
    return two ids. *)
Lemma create_or_get_hunter_empty_email :
  let p1 := {| hc_display_name := "Jinwoo"; hc_email := Some "" |} in
  let p2 := {| hc_display_name := "Jinho"; hc_email := Some "" |} in
  let r1 := create_or_get_hunter p1 db.empty in
  let r2 := create_or_get_hunter p2 r1.2 in
  (∃ resp1 resp2,
     r1.1 = Ok resp1 ∧ r2.1 = Ok resp2
     ∧ Py.get resp1 "id" = Some (VStr "000000000000000000000000")
     ∧ Py.get resp2 "id" = Some (VStr "000000000000000000000003"))
  ∧ length (db.hunter r2.2) = 2%nat
  ∧ length (db.stats r2.2) = 2%nat
  ∧ length (db.log r2.2) = 2%nat.
Proof.
  vm_compute. split; [| by repeat split].
  do 2 eexists. repeat split; reflexivity.
Qed.

Lemma hunter_query_email name e :
  e ≠ "" →
  hunter_query {| hc_display_name := name; hc_email := Some e |} = by_email e.
Proof.
  intros He. unfold hunter_query. simpl.
  by destruct (String.eqb_spec e "").
Qed.

(** C9 (amended).  Two create-or-get calls with the same non-empty email
    (whatever the display names) return the same document, hence the same
    hunter id, and the second call writes nothing.  If no hunter had that
    email, the first call inserts exactly one Hunter (rank "E", level 1,
    exp 0, total_exp 0, energy 100), one Stats document with the five
    counters at 1 and one welcome log; if one had, the first call writes
    nothing either.  Without an email (or with an empty one) the lookup is
    by display name. *)
Theorem create_or_get_hunter_same_email s name1 name2 e :
  e ≠ "" →
  let p1 := {| hc_display_name := name1; hc_email := Some e |} in
  let p2 := {| hc_display_name := name2; hc_email := Some e |} in
  (∃ resp s1 h,
     create_or_get_hunter p1 s = (Ok resp, s1)
     ∧ create_or_get_hunter p2 s1 = (Ok resp, s1)
     ∧ List.find (by_email e) (db.hunter s1) = Some h
     ∧ resp = serialize (hunter_dict h)
     ∧ Py.get resp "id" = Some (VStr (Bson.str (Hunter._id h)))
     ∧ (is_Some (List.find (by_email e) (db.hunter s)) → s1 = s)
     ∧ (List.find (by_email e) (db.hunter s) = None →
        ∃ (st : StatsDoc) entry,
          db.hunter s1 = (db.hunter s ++ [h])%list
          ∧ db.stats s1 = (db.stats s ++ [st])%list
          ∧ db.log s1 = (db.log s ++ [entry])%list
          ∧ db.quest s1 = db.quest s
          ∧ Hunter.display_name h = name1 ∧ Hunter.email h = Some e
          ∧ Hunter.rank h = "E" ∧ Hunter.level h = 1 ∧ Hunter.exp h = 0
          ∧ Hunter.total_exp h = 0 ∧ Hunter.energy h = 100
          ∧ st !! "hunter_id" = Some (VStr (Bson.str (Hunter._id h)))
          ∧ (∀ k, k ∈ ["STR"; "INT"; "DEX"; "STA"; "LUK"] →
                  st !! k = Some (VInt 1))
          ∧ Log.hunter_id entry = Bson.str (Hunter._id h)
          ∧ Log.message entry = "System: You have awakened as a Hunter."
          ∧ Log.level entry = "success"))
  ∧ (∀ name email h,
       email = None ∨ email = Some "" →
       List.find (by_display_name name) (db.hunter s) = Some h →
       create_or_get_hunter {| hc_display_name := name; hc_email := email |} s
       = (Ok (serialize (hunter_dict h)), s)).
Proof.
  intros He p1 p2. split.
  - rewrite (create_or_get_hunter_run s p1).
    unfold p1 at 1. rewrite hunter_query_email by done.
    destruct (List.find (by_email e) (db.hunter s)) as [h|] eqn:Hfind.
    + exists (serialize (hunter_dict h)), s, h.
      split; [reflexivity |]. split.
      { rewrite (create_or_get_hunter_run s p2).
        unfold p2 at 1. rewrite hunter_query_email by done.
        by rewrite Hfind. }
      repeat split; try done.
    + set (h := new_hunter p1 s).
      assert (List.find (by_email e) (db.hunter (created_state p1 s)) = Some h)
        as Hnew.
      { simpl. rewrite (find_app_miss _ _ _ Hfind). simpl.
        unfold by_email at 1. simpl. by rewrite bool_decide_eq_true_2. }
      exists (serialize (hunter_dict h)), (created_state p1 s), h.
      split; [reflexivity |]. split.
      { rewrite (create_or_get_hunter_run (created_state p1 s) p2).
        unfold p2 at 1. rewrite hunter_query_email by done.
        by rewrite Hnew. }
      split; [exact Hnew |]. split; [reflexivity |].
      split; [reflexivity |]. split; [by intros [? [=]] |].
      intros _. exists (new_stats s), (welcome_log s).
      repeat split.
      intros k Hk. unfold new_stats.
      repeat (apply elem_of_cons in Hk as [-> | Hk]; [reflexivity |]).
      inversion Hk.
  - intros name email h Hemail Hfind.
    rewrite create_or_get_hunter_run.
    assert (hunter_query {| hc_display_name := name; hc_email := email |}
            = by_display_name name) as ->.
    { by destruct Hemail as [-> | ->]. }
    by rewrite Hfind.
Qed.

(** ** C10: a missing hunter stops the claim before any write *)

(** C10.  When the quest is found and not yet claimed but no hunter has
    its hunter id, [claim_quest] raises the 404 "Hunter not found" and the
    store is exactly what it was: the quest keeps its status, no hunter or
    Stats document is written and no log entry is added. *)
Theorem claim_quest_missing_hunter s quest_id oid q hid :
  Bson.parse quest_id = Ok oid →
  List.find (quest_by_id oid) (db.quest s) = Some q →
  Quest.status q ≠ "claimed" →
  Bson.parse (Quest.hunter_id q) = Ok hid →
  List.find (hunter_by_id hid) (db.hunter s) = None →
  ∃ s',
    claim_quest quest_id s
      = (Raise (HTTPException 404 "Hunter not found"), s')
    ∧ s' = s
    ∧ List.find (quest_by_id oid) (db.quest s') = Some q
    ∧ db.hunter s' = db.hunter s ∧ db.stats s' = db.stats s
    ∧ db.log s' = db.log s.
Proof.
  intros Hp Hq Hs Hh Hf. exists s. split; [| by repeat split].
  unfold claim_quest, bind, lift, find_one. rewrite Hp. simpl. rewrite Hq.
  destruct (String.eqb_spec (Quest.status q) "claimed"); [done |].
  rewrite Hh. simpl. by rewrite Hf.
Qed.

(** * Worked scenarios *)

Lemma counters_are_intb_sound d :
  counters_are_intb d = true → counters_are_int d.
Proof.
  unfold counters_are_intb, counters_are_int. intros Hall k v Hkv Hres.
  rewrite forallb_forall in Hall.
  apply elem_of_map_to_list, list_elem_of_In, Hall in Hkv. simpl in Hkv.
  apply orb_true_iff in Hkv as [Hk | Hv].
  - by apply bool_decide_eq_true in Hk.
  - destruct v; try discriminate. by eexists.
Qed.

(** The Stats document create-or-get inserts holds integers under its
    counters, whatever the store. *)
Lemma new_stats_counters_are_int s : counters_are_int (new_stats s).
Proof. apply counters_are_intb_sound. vm_compute. reflexivity. Qed.

Lemma s95_claimable : claimable s95 gate_quest_id gate_quest jinwoo.
Proof.
  split; [exists 3%N | discriminate | exists 0%N]; split; reflexivity.
Defined.

Lemma s95_applicable : stat_reward_applicable s95 gate_quest jinwoo.
Proof.
  split; [| split].
  - simpl. apply NoDup_singleton.
  - simpl. intros k Hk. apply list_elem_of_singleton in Hk as ->.
    unfold reserved_keys. rewrite !elem_of_cons.
    intros [? | [? | [? | [? | Hnil]]]]; try discriminate. inversion Hnil.
  - apply counters_are_intb_sound. vm_compute. reflexivity.
Defined.

(** Level 1, exp 95, reward 250: three level-ups, exp 45, total 345. *)
Lemma claim_quest_level_rollover_witness :
  claimable s95 gate_quest_id gate_quest jinwoo
  ∧ 0 ≤ 95 < LEVEL_STEP ∧ 0 ≤ 250
  ∧ level_loop (95 + 250) 1 false = (45, 4, true)
  ∧ List.find (hunter_by_id 0%N) (db.hunter s345)
    = Some (Hunter.set_progress 45 345 4 "E" 7 jinwoo)
  ∧ (claim_quest gate_quest_id s95).1
    = Ok [ ("status", VStr "claimed"); ("level", VInt 4);
           ("rank", VStr "E"); ("exp", VInt 45); ("total_exp", VInt 345) ].
Proof.
  assert (0 ≤ 95 < LEVEL_STEP) as HE by (unfold LEVEL_STEP; lia).
  assert (0 ≤ 250) as HR by lia.
  destruct (claim_quest_level_rollover s95 gate_quest_id gate_quest jinwoo
              s95_claimable HE HR) as (Hloop & Hfind & _ & Hok).
  split; [exact s95_claimable |]. split; [exact HE |]. split; [exact HR |].
  split; [exact Hloop |]. split; [exact Hfind |].
  exact (Hok s95_applicable).
Defined.

Lemma s95_run :
  claim_quest gate_quest_id s95
  = (Ok [ ("status", VStr "claimed"); ("level", VInt 4);
          ("rank", VStr "E"); ("exp", VInt 45); ("total_exp", VInt 345) ],
     s345).
Proof. vm_compute. reflexivity. Defined.

Lemma s345_quest :
  List.find (quest_by_id 3%N) (db.quest s345)
  = Some (Quest.set_status "claimed" 9 gate_quest).
Proof. vm_compute. reflexivity. Defined.

(** Claiming the claimed quest again changes nothing; the pending one
    could be claimed without being completed first. *)
Lemma claim_quest_idempotent_witness :
  Bson.parse gate_quest_id = Ok 3%N
  ∧ List.find (quest_by_id 3%N) (db.quest s345)
    = Some (Quest.set_status "claimed" 9 gate_quest)
  ∧ claim_quest gate_quest_id s345 = (Ok [("status", VStr "claimed")], s345)
  ∧ List.find (quest_by_id 3%N) (db.quest s95) = Some gate_quest
  ∧ Quest.status gate_quest = "pending"
  ∧ ∃ resp s',
      claim_quest gate_quest_id s95 = (Ok resp, s')
      ∧ Py.get resp "status" = Some (VStr "claimed")
      ∧ Py.get resp "total_exp" = Some (VInt 345)
      ∧ (Quest.status <$> List.find (quest_by_id 3%N) (db.quest s'))
        = Some "claimed".
Proof.
  assert (Bson.parse gate_quest_id = Ok 3%N) as Hp by reflexivity.
  assert (List.find (quest_by_id 3%N) (db.quest s95) = Some gate_quest)
    as Hq by reflexivity.
  split; [exact Hp |]. split; [exact s345_quest |]. split.
  - exact (proj1 (claim_quest_idempotent s345 gate_quest_id 3%N _
                    Hp s345_quest) eq_refl).
  - split; [exact Hq |]. split; [reflexivity |].
    exact (proj2 (claim_quest_idempotent s95 gate_quest_id 3%N gate_quest
                    Hp Hq) eq_refl jinwoo s95_claimable s95_applicable).
Defined.

Lemma compute_rank_thresholds_witness :
  4 ≤ 29
  ∧ (rank_index (compute_rank 4) ≤ rank_index (compute_rank 29))%nat
  ∧ compute_rank 29 = "S".
Proof.
  assert (4 ≤ 29) as Hle by lia.
  split; [exact Hle |]. split.
  - exact (proj1 compute_rank_thresholds 4 29 Hle).
  - apply (proj2 (proj1 (proj2 (proj2 compute_rank_thresholds)) 29)). lia.
Defined.

Lemma hunter_invariant_maintained_witness :
  claimable s95 gate_quest_id gate_quest jinwoo
  ∧ Forall hunter_inv (db.hunter s95)
  ∧ Forall hunter_inv (db.hunter s345)
  ∧ ∃ h', List.find (hunter_by_id 0%N) (db.hunter s345) = Some h'
          ∧ hunter_inv h'.
Proof.
  assert (Forall hunter_inv (db.hunter s95)) as Hinv.
  { repeat constructor. }
  destruct hunter_invariant_maintained as (_ & _ & Hwritten & _ & Hkept).
  split; [exact s95_claimable |]. split; [exact Hinv |]. split.
  - exact (Hkept s95 gate_quest_id Hinv).
  - exact (Hwritten s95 gate_quest_id gate_quest jinwoo s95_claimable).
Defined.


Lemma complete_quest_idempotent_witness :
  Bson.parse gate_quest_id = Ok 3%N
  ∧ List.find (quest_by_id 3%N) (db.quest s345)
    = Some (Quest.set_status "claimed" 9 gate_quest)
  ∧ complete_quest gate_quest_id s345 = (Ok [("status", VStr "claimed")], s345)
  ∧ List.find (quest_by_id 3%N) (db.quest s95) = Some gate_quest
  ∧ ∃ s' entry,
      complete_quest gate_quest_id s95 = (Ok [("status", VStr "completed")], s')
      ∧ List.find (quest_by_id 3%N) (db.quest s')
        = Some (Quest.set_status "completed" 7 gate_quest)
      ∧ db.log s' = [entry]
      ∧ Log.message entry = "Quest completed: Clear the gate".
Proof.
  assert (Bson.parse gate_quest_id = Ok 3%N) as Hp by reflexivity.
  assert (List.find (quest_by_id 3%N) (db.quest s95) = Some gate_quest)
    as Hq by reflexivity.
  split; [exact Hp |]. split; [exact s345_quest |]. split.
  - exact (proj1 (complete_quest_idempotent s345 gate_quest_id 3%N _
                    Hp s345_quest) (or_intror eq_refl)).
  - split; [exact Hq |].
    assert (Quest.status gate_quest ≠ "completed") as H1 by discriminate.
    assert (Quest.status gate_quest ≠ "claimed") as H2 by discriminate.
    destruct (proj2 (complete_quest_idempotent s95 gate_quest_id 3%N
                       gate_quest Hp Hq) H1 H2)
      as (s' & entry & Hrun & Hfind & Hlog & Hmsg & _).
    exists s', entry. split; [exact Hrun |]. split; [exact Hfind |].
    split; [exact Hlog | exact Hmsg].
Defined.


(** Level 1 to 4: a "Level Up!" entry, then the reward summary. *)
Lemma claim_quest_log_entries_witness :
  claimable s95 gate_quest_id gate_quest jinwoo
  ∧ db.log s95 = []
  ∧ length (db.log s345) = 2%nat
  ∧ ∃ up info,
      db.log s345 = [up; info]
      ∧ Log.message up = "Level Up! You are now Level 4 — Rank E."
      ∧ Log.level up = "success"
      ∧ Log.message info = "Rewards claimed: +250 EXP, +{'STR': 2} stats"
      ∧ Log.level info = "info".
Proof.
  split; [exact s95_claimable |]. split; [reflexivity |].
  destruct (claim_quest_log_entries s95 gate_quest_id gate_quest jinwoo _ _
              s95_claimable s95_run)
    as (new_level & entries & info & Hlevel & _ & Hlog & Hinfo & Hmsg
        & Hup & _).
  simpl in Hlevel. injection Hlevel as <-.
  assert (Hunter.level jinwoo < 4) as Hlt by (simpl; lia).
  destruct (Hup Hlt) as ((up & -> & Hsuccess & Hupmsg) & Hlen).
  split; [exact Hlen |]. exists up, info.
  split; [exact Hlog |]. split; [exact Hupmsg |]. split; [exact Hsuccess |].
  split; [exact Hmsg | exact Hinfo].
Defined.

Lemma create_or_get_hunter_same_email_witness :
  "jinwoo@hunters.kr" ≠ ""
  ∧ ∃ resp s1,
      create_or_get_hunter
        {| hc_display_name := "Jinwoo"; hc_email := Some "jinwoo@hunters.kr" |}
        db.empty = (Ok resp, s1)
      ∧ create_or_get_hunter
          {| hc_display_name := "Sung"; hc_email := Some "jinwoo@hunters.kr" |}
          s1 = (Ok resp, s1)
      ∧ Py.get resp "id" = Some (VStr "000000000000000000000000")
      ∧ length (db.hunter s1) = 1%nat
      ∧ length (db.stats s1) = 1%nat
      ∧ length (db.log s1) = 1%nat.
Proof.
  assert ("jinwoo@hunters.kr" ≠ "") as He by discriminate.
  split; [exact He |].
  destruct (proj1 (create_or_get_hunter_same_email db.empty "Jinwoo" "Sung"
                     "jinwoo@hunters.kr" He))
    as (resp & s1 & h & Hrun1 & Hrun2 & _ & _ & Hid & _ & Hnew).
  destruct (Hnew eq_refl)
    as (st & entry & Hh & Hst & Hlog & _).
  exists resp, s1. split; [exact Hrun1 |]. split; [exact Hrun2 |].
  split.
  - rewrite Hid. pose proof (f_equal snd Hrun1) as Hs1. cbn [snd] in Hs1.
    pose proof Hh as Hcomputed. rewrite <- Hs1 in Hcomputed.
    vm_compute in Hcomputed. injection Hcomputed as <-. reflexivity.
  - rewrite Hh, Hst, Hlog. repeat split.
Defined.

Lemma claim_quest_missing_hunter_witness :
  Bson.parse "000000000000000000000000" = Ok 0%N
  ∧ List.find (quest_by_id 0%N) (db.quest s_orphan) = Some orphan_quest
  ∧ Quest.status orphan_quest ≠ "claimed"
  ∧ Bson.parse (Quest.hunter_id orphan_quest) = Ok 48879%N
  ∧ List.find (hunter_by_id 48879%N) (db.hunter s_orphan) = None
  ∧ claim_quest "000000000000000000000000" s_orphan
    = (Raise (HTTPException 404 "Hunter not found"), s_orphan).
Proof.
  assert (Quest.status orphan_quest ≠ "claimed") as Hs by discriminate.
  repeat (split; [first [reflexivity | exact Hs] |]).
  destruct (claim_quest_missing_hunter s_orphan "000000000000000000000000"
              0%N orphan_quest 48879%N eq_refl eq_refl Hs eq_refl eq_refl)
    as (s' & Hrun & -> & _).
  exact Hrun.
Defined.

(** * Beyond the claims: the other routes *)

(** ** Each remaining route, in one step *)

Lemma falsy_doc_found key v c :
  falsy_doc (List.find (field_is key v) c)
  = match List.find (field_is key v) c with None => true | Some _ => false end.
Proof.
  destruct (List.find _ _) as [d|] eqn:Hfind; [| reflexivity].
  apply find_some in Hfind as [_ Hd]. unfold field_is in Hd.
  apply bool_decide_eq_true in Hd. simpl.
  apply bool_decide_eq_false. intros ->. by rewrite lookup_empty in Hd.
Qed.

Lemma get_stats_run s hunter_id :
  get_stats hunter_id s =
    match List.find (field_is "hunter_id" (VStr hunter_id)) (db.stats s) with
    | Some d => (Ok (serialize_map d), s)
    | None => (Ok (serialize_map (lazy_stats hunter_id s)),
               stats_created_state hunter_id s)
    end.
Proof.
  destruct s as [hs ss qs ls o t].
  unfold get_stats. unfold bind at 1. unfold find_one.
  cbn [docs stats_coll db.stats]. rewrite falsy_doc_found.
  destruct (List.find _ _); [reflexivity |].
  cbv [bind now insert_one ret store docs stats_coll
       db.hunter db.stats db.quest db.log db.next_oid db.clock].
  unfold stats_created_state, lazy_stats.
  cbn [db.hunter db.stats db.quest db.log db.next_oid db.clock].
  repeat first [reflexivity | lia | progress f_equal].
Qed.

Lemma create_quest_run s payload :
  create_quest payload s =
    (Ok (serialize (quest_dict (new_quest payload s))),
     quest_created_state payload s).
Proof.
  destruct s as [hs ss qs ls o t].
  cbv [create_quest bind now insert_one ret store docs quest_coll log_coll
       db.hunter db.stats db.quest db.log db.next_oid db.clock].
  unfold quest_created_state, new_quest, registration_log.
  cbn [db.hunter db.stats db.quest db.log db.next_oid db.clock].
  repeat first [reflexivity | lia | progress f_equal].
Qed.

Lemma seed_loop_run hunter_id todo : ∀ s created,
  seed_loop hunter_id todo created s =
    (Ok (created ++ map serialize
           (seed_payloads_from hunter_id todo (db.clock s) (db.next_oid s)))%list,
     db.mk (db.hunter s) (db.stats s)
           (db.quest s
            ++ seed_quests_from hunter_id todo (db.clock s) (db.next_oid s))%list
           (db.log s)
           (db.next_oid s + N.of_nat (length todo))%N
           (db.clock s + 2 * Z.of_nat (length todo))).
Proof.
  induction todo as [|sm todo IH]; intros [hs ss qs ls o t] created.
  - cbn [seed_loop ret seed_payloads_from seed_quests_from map length
         db.hunter db.stats db.quest db.log db.next_oid db.clock].
    rewrite !app_nil_r. repeat first [reflexivity | lia | progress f_equal].
  - cbn [seed_loop]. unfold bind at 1. unfold now at 1.
    unfold bind at 1. unfold now at 1. unfold bind at 1.
    unfold insert_one at 1.
    cbn [store docs quest_coll
         db.hunter db.stats db.quest db.log db.next_oid db.clock].
    rewrite IH.
    cbn [seed_payloads_from seed_quests_from map length
         db.hunter db.stats db.quest db.log db.next_oid db.clock].
    rewrite <- !app_assoc. cbn [app].
    repeat first [reflexivity | lia | progress f_equal].
Qed.

Lemma seed_dailies_run s hunter_id :
  seed_dailies hunter_id s =
    (Ok (seed_response hunter_id s), seeded_state hunter_id s).
Proof.
  unfold seed_dailies. unfold bind at 1. rewrite seed_loop_run.
  destruct s as [hs ss qs ls o t].
  cbv [bind now insert_one ret store docs log_coll
       db.hunter db.stats db.quest db.log db.next_oid db.clock].
  unfold seed_response, seeded_state, seeded_quests, seed_log.
  cbn [db.hunter db.stats db.quest db.log db.next_oid db.clock app].
  change (length samples) with 3%nat.
  repeat first [reflexivity | lia | progress f_equal].
Qed.

Lemma complete_quest_cases s quest_id :
  (Bson.parse quest_id = Raise InvalidId
   ∧ complete_quest quest_id s = (Raise InvalidId, s))
  ∨ (∃ oid, Bson.parse quest_id = Ok oid
       ∧ List.find (quest_by_id oid) (db.quest s) = None
       ∧ complete_quest quest_id s
         = (Raise (HTTPException 404 "Quest not found"), s))
  ∨ (∃ oid q, Bson.parse quest_id = Ok oid
       ∧ List.find (quest_by_id oid) (db.quest s) = Some q
       ∧ (Quest.status q = "completed" ∨ Quest.status q = "claimed")
       ∧ complete_quest quest_id s
         = (Ok [("status", VStr (Quest.status q))], s))
  ∨ (∃ oid q, Bson.parse quest_id = Ok oid
       ∧ List.find (quest_by_id oid) (db.quest s) = Some q
       ∧ Quest.status q ≠ "completed" ∧ Quest.status q ≠ "claimed"
       ∧ complete_quest quest_id s
         = (Ok [("status", VStr "completed")], completed_state q s)).
Proof.
  destruct (parse_cases quest_id) as [[oid Hp] | Hp].
  2: { left. split; [done |]. unfold complete_quest, bind, lift.
       by rewrite Hp. }
  right.
  destruct (List.find (quest_by_id oid) (db.quest s)) as [q|] eqn:Hq.
  2: { left. exists oid. split; [done |]. split; [done |].
       unfold complete_quest, bind, lift, find_one. rewrite Hp. simpl.
       by rewrite Hq. }
  right.
  destruct (String.eqb_spec (Quest.status q) "completed") as [H1 | H1].
  { left. exists oid, q. split; [done |]. split; [done |].
    split; [by left |].
    unfold complete_quest, bind, lift, find_one. rewrite Hp. simpl.
    rewrite Hq. by rewrite H1. }
  destruct (String.eqb_spec (Quest.status q) "claimed") as [H2 | H2].
  { left. exists oid, q. split; [done |]. split; [done |].
    split; [by right |].
    unfold complete_quest, bind, lift, find_one. rewrite Hp. simpl.
    rewrite Hq. by rewrite H2. }
  right. exists oid, q. do 4 (split; [done |]).
  destruct s as [hs ss qs ls o t].
  unfold complete_quest, bind, lift, find_one. rewrite Hp. simpl.
  simpl in Hq. rewrite Hq.
  destruct (String.eqb_spec (Quest.status q) "completed"); [done |].
  destruct (String.eqb_spec (Quest.status q) "claimed"); [done |].
  unfold completed_state, completion_log. simpl.
  repeat first [reflexivity | lia | progress f_equal].
Qed.

(** ** Documents under [update_one] *)

Section updates.
Context {A : Type} (flt : A → bool) (f : A → A).

Lemma fmap_update_first {B} (g : A → B) c :
  (∀ x, g (f x) = g x) → g <$> update_first flt f c = g <$> c.
Proof.
  intros Hg. induction c as [|d c IH]; [done |]. cbn [update_first].
  destruct (flt d); rewrite !fmap_cons; [by rewrite Hg | by rewrite IH].
Qed.

Lemma Forall_update_first (P : A → Prop) c :
  Forall P c → (∀ x, P x → flt x = true → P (f x)) →
  Forall P (update_first flt f c).
Proof.
  intros Hc Hf. induction Hc as [|d c Hd Hc IH]; simpl; [constructor |].
  destruct (flt d) eqn:Hflt; constructor; auto.
Qed.

(** A lookup by another filter does not see the update, when the update
    keeps the documents on their side of that filter. *)
Lemma find_update_first_other (p : A → bool) c :
  (∀ x, p (f x) = p x) → (∀ x, flt x = true → p x = false) →
  List.find p (update_first flt f c) = List.find p c.
Proof.
  intros Hkeep Hother. induction c as [|d c IH]; simpl; [done |].
  destruct (flt d) eqn:Hflt; simpl.
  - rewrite Hkeep, (Hother _ Hflt). reflexivity.
  - by rewrite IH.
Qed.
End updates.

(** ** The invariant of the stores *)

Lemma store_ok_empty : store_ok db.empty.
Proof. split; simpl; constructor. Qed.

Lemma NoDup_fresh_ids (old new : list N) (lo hi : N) :
  (lo ≤ hi)%N →
  NoDup old → Forall (λ i, (i < lo)%N) old →
  NoDup new → Forall (λ i, (lo ≤ i < hi)%N) new →
  NoDup (old ++ new) ∧ Forall (λ i, (i < hi)%N) (old ++ new).
Proof.
  intros Hle Hold Hlt Hnew Hge. split.
  - apply NoDup_app. split; [done |]. split; [| done].
    intros i Hi Hi'. rewrite Forall_forall in Hlt, Hge.
    specialize (Hlt i Hi). specialize (Hge i Hi'). lia.
  - apply Forall_app. split.
    + eapply Forall_impl; [exact Hlt |]. simpl. intros. lia.
    + eapply Forall_impl; [exact Hge |]. simpl. intros. lia.
Qed.

(** One step of a route, seen from the invariant: in each collection the
    old documents keep their ids (and stay well formed) and the new ones
    get ids the store had not handed out. *)
Lemma store_ok_step s s' hs newh qs newq newl :
  store_ok s →
  (db.next_oid s ≤ db.next_oid s')%N →
  db.hunter s' = (hs ++ newh)%list →
  Hunter._id <$> hs = Hunter._id <$> db.hunter s →
  Forall progress_of_total (hs ++ newh) →
  NoDup (Hunter._id <$> newh) →
  Forall (λ i, (db.next_oid s ≤ i < db.next_oid s')%N) (Hunter._id <$> newh) →
  db.quest s' = (qs ++ newq)%list →
  Quest._id <$> qs = Quest._id <$> db.quest s →
  Forall (λ q, 0 ≤ Quest.exp_reward q ∧ lifecycle_status (Quest.status q))
         (qs ++ newq) →
  NoDup (Quest._id <$> newq) →
  Forall (λ i, (db.next_oid s ≤ i < db.next_oid s')%N) (Quest._id <$> newq) →
  db.log s' = (db.log s ++ newl)%list →
  NoDup (Log._id <$> newl) →
  Forall (λ i, (db.next_oid s ≤ i < db.next_oid s')%N) (Log._id <$> newl) →
  store_ok s'.
Proof.
  intros [Hh1 Hh2 Hq1 Hq2 Hl1 Hl2 Hp Hr Hs] Hle
         Eh Hhs Hprog Hnh1 Hnh2 Eq Hqs Hquest Hnq1 Hnq2 El Hnl1 Hnl2.
  assert (Forall (λ i, (i < db.next_oid s)%N) (Hunter._id <$> db.hunter s))
    as Hh1' by (by apply Forall_fmap).
  assert (Forall (λ i, (i < db.next_oid s)%N) (Quest._id <$> db.quest s))
    as Hq1' by (by apply Forall_fmap).
  assert (Forall (λ i, (i < db.next_oid s)%N) (Log._id <$> db.log s))
    as Hl1' by (by apply Forall_fmap).
  destruct (NoDup_fresh_ids _ _ _ _ Hle Hh2 Hh1' Hnh1 Hnh2) as [Ha Hb].
  destruct (NoDup_fresh_ids _ _ _ _ Hle Hq2 Hq1' Hnq1 Hnq2) as [Hc Hd].
  destruct (NoDup_fresh_ids _ _ _ _ Hle Hl2 Hl1' Hnl1 Hnl2) as [He Hf].
  rewrite <- Hhs, <- fmap_app in Ha, Hb.
  rewrite <- Hqs, <- fmap_app in Hc, Hd.
  rewrite <- fmap_app in He, Hf.
  apply Forall_fmap in Hb, Hd, Hf.
  split; rewrite ?Eh, ?Eq, ?El; try done.
  - eapply Forall_impl; [exact Hquest |]. by intros q [? ?].
  - eapply Forall_impl; [exact Hquest |]. by intros q [? ?].
Qed.

Lemma store_ok_same s s' :
  store_ok s →
  db.hunter s' = db.hunter s → db.quest s' = db.quest s →
  db.log s' = db.log s → (db.next_oid s ≤ db.next_oid s')%N →
  store_ok s'.
Proof.
  intros Hok Eh Eq El Hle.
  apply (store_ok_step s s' (db.hunter s) [] (db.quest s) [] []);
    rewrite ?app_nil_r; try done; try constructor.
  - apply Hok.
  - apply Forall_forall. intros q Hq. split.
    + pose proof (ok_rewards _ Hok) as H. rewrite Forall_forall in H. auto.
    + pose proof (ok_status _ Hok) as H. rewrite Forall_forall in H. auto.
Qed.

Lemma get_hunter_state s hunter_id : (get_hunter hunter_id s).2 = s.
Proof.
  unfold get_hunter, bind, lift, find_one.
  destruct (Bson.parse hunter_id); [| reflexivity]. simpl.
  destruct (List.find _ _); reflexivity.
Qed.

Lemma stat_phase_next_oid key rw s :
  (db.next_oid s ≤ db.next_oid (stat_phase key rw s).2)%N.
Proof.
  unfold stat_phase, bind, lift, find_one, now, upsert_set, update_one,
    insert_one, ret.
  destruct (nonempty rw); simpl; [| lia].
  destruct (stat_loop _ _); simpl; [| lia].
  destruct (List.find _ _); simpl.
  - destruct (_ !! "_id"); [case_decide |]; simpl; lia.
  - destruct (_ !! "_id"); simpl; lia.
Qed.

Lemma progress_after_claim h x q new_exp level leveled_up t :
  progress_of_total h → progress_of_total x → 0 ≤ Quest.exp_reward q →
  level_loop (Hunter.exp h + Quest.exp_reward q) (Hunter.level h) false
    = (new_exp, level, leveled_up) →
  progress_of_total
    (Hunter.set_progress new_exp (Hunter.total_exp h + Quest.exp_reward q)
       level (compute_rank level) t x).
Proof.
  intros (HT & HL & HE & _ & _) (_ & _ & _ & _ & Henergy) HR Hloop.
  rewrite level_loop_closed_form in Hloop.
  unfold progress_of_total, LEVEL_STEP in *. simpl.
  destruct (Z.ltb_spec (Hunter.exp h + Quest.exp_reward q) 100);
    injection Hloop as <- <- _; rewrite HE, HL in *;
    (split; [lia |]); (split; [| split; [| done]]);
    Z.div_mod_to_equations; lia.
Qed.

Lemma new_hunter_progress payload s : progress_of_total (new_hunter payload s).
Proof. by repeat split. Qed.

Lemma store_ok_quest_facts s :
  store_ok s →
  Forall (λ q, 0 ≤ Quest.exp_reward q ∧ lifecycle_status (Quest.status q))
         (db.quest s).
Proof.
  intros Hok. apply Forall_forall. intros q Hq. split.
  - pose proof (ok_rewards _ Hok) as H. rewrite Forall_forall in H. auto.
  - pose proof (ok_status _ Hok) as H. rewrite Forall_forall in H. auto.
Qed.

Lemma store_ok_run s r : store_ok s → validated r → store_ok (run r s).
Proof.
  intros Hok Hvalid. pose proof (store_ok_quest_facts s Hok) as Hquests.
  destruct r as [p | hid | hid | p | hid ty | qid | qid | hid n | hid];
    unfold run.
  - (* create_or_get_hunter *)
    rewrite create_or_get_hunter_run.
    destruct (List.find _ _); [done |]. simpl.
    apply (store_ok_step s _ (db.hunter s) [new_hunter p s] (db.quest s) []
             [welcome_log s]); rewrite ?app_nil_r; simpl; try done;
      try (by repeat constructor); try lia; try apply NoDup_singleton;
      try (repeat constructor; simpl; lia).
    apply Forall_app. split; [apply Hok |].
    repeat constructor; apply new_hunter_progress.
  - by rewrite get_hunter_state.
  - (* get_stats *)
    rewrite get_stats_run. destruct (List.find _ _); [done |]. simpl.
    apply (store_ok_same s); simpl; try done. lia.
  - (* create_quest *)
    rewrite create_quest_run. simpl in Hvalid. simpl.
    apply (store_ok_step s _ (db.hunter s) [] (db.quest s) [new_quest p s]
             [registration_log p s]); rewrite ?app_nil_r; simpl; try done;
      try (by repeat constructor); try lia; try apply NoDup_singleton;
      try (repeat constructor; simpl; lia); try apply Hok.
    apply Forall_app. split; [done |].
    constructor; [| constructor]. split; [done | by left].
  - done.
  - (* complete_quest *)
    destruct (complete_quest_cases s qid)
      as [[_ ->] | [(oid & _ & _ & ->) | [(oid & q & _ & _ & _ & ->)
         | (oid & q & Hp & Hq & _ & _ & ->)]]]; try done. simpl.
    apply (store_ok_step s _ (db.hunter s) []
             (update_first (quest_by_id (Quest._id q))
                (Quest.set_status "completed" (db.clock s)) (db.quest s))
             [] [completion_log q s]); rewrite ?app_nil_r; simpl; try done;
      try (by repeat constructor); try lia; try apply NoDup_singleton;
      try (repeat constructor; simpl; lia); try apply Hok.
    + by apply fmap_update_first.
    + apply Forall_update_first; [done |].
      intros x [Hx _] _. split; [done |]. right. by left.
  - (* claim_quest *)
    destruct (claim_quest_outcome s qid)
      as [ | | | | | q h new_exp level leveled_up e s2 Hc Hloop Hstat
         | q h new_exp level leveled_up s2 Hc Hloop Hstat ]; try done.
    all: pose proof (stat_phase_frame (VStr (Bson.str (Hunter._id h)))
                  (default [] (Quest.stat_reward q))
                  (awarded_state q h new_exp level s)) as (Hh & Hqs & Hl);
      pose proof (stat_phase_next_oid (VStr (Bson.str (Hunter._id h)))
                  (default [] (Quest.stat_reward q))
                  (awarded_state q h new_exp level s)) as Hoid;
      rewrite Hstat in Hh, Hqs, Hl, Hoid; simpl in Hh, Hqs, Hl, Hoid.
    all: assert (In q (db.quest s) ∧ In h (db.hunter s)) as [Hqin Hhin]
      by (destruct Hc as [(oid & _ & Hq) _ (hid & _ & Hf)];
          apply find_some in Hq as [? _]; apply find_some in Hf as [? _];
          done).
    all: assert (0 ≤ Quest.exp_reward q) as HR
      by (rewrite Forall_forall in Hquests; apply list_elem_of_In in Hqin;
          by apply Hquests).
    all: assert (progress_of_total h) as Hph
      by (pose proof (ok_progress _ Hok) as H; rewrite Forall_forall in H;
          apply list_elem_of_In in Hhin; by apply H).
    all: assert (Forall progress_of_total
                   (update_first (hunter_by_id (Hunter._id h))
                      (Hunter.set_progress new_exp
                         (Hunter.total_exp h + Quest.exp_reward q) level
                         (compute_rank level) (db.clock s)) (db.hunter s)))
      as Hprog
      by (apply Forall_update_first; [apply Hok |]; intros x Hx _;
          by eapply progress_after_claim).
    + apply (store_ok_step s _ (db.hunter s2) [] (db.quest s) [] []);
        rewrite ?app_nil_r; simpl; try done; try constructor.
      * rewrite Hh. by apply fmap_update_first.
      * by rewrite Hh.
    + apply (store_ok_step s _ (db.hunter s2) []
               (update_first (quest_by_id (Quest._id q))
                  (Quest.set_status "claimed" (db.clock s2)) (db.quest s))
               [] (claim_logs q h level leveled_up s2));
        rewrite ?app_nil_r; simpl; try done; try constructor;
        rewrite ?Hqs, ?Hl; try done.
      * destruct leveled_up; lia.
      * rewrite Hh. by apply fmap_update_first.
      * by rewrite Hh.
      * by apply fmap_update_first.
      * apply Forall_update_first; [done |].
        intros x [Hx _] _. split; [done |]. right. by right.
      * unfold claim_logs. destruct leveled_up; simpl;
          [| apply NoDup_singleton].
        apply NoDup_cons. split; [| apply NoDup_singleton].
        rewrite list_elem_of_singleton. lia.
      * unfold claim_logs. destruct leveled_up; simpl;
          repeat constructor; lia.
  - done.
  - (* seed_dailies *)
    rewrite seed_dailies_run. simpl.
    apply (store_ok_step s _ (db.hunter s) [] (db.quest s)
             (seeded_quests hid s) [seed_log hid s]);
      rewrite ?app_nil_r; simpl; try done;
      try (by repeat constructor); try lia; try apply NoDup_singleton;
      try (repeat constructor; simpl; lia); try apply Hok.
    + apply Forall_app. split; [done |].
      repeat constructor; simpl; try lia; by left.
    + repeat constructor; rewrite ?elem_of_cons; simpl.
      * intros [? | [? | Hnil]]; [lia | lia | inversion Hnil].
      * intros [? | Hnil]; [lia | inversion Hnil].
      * intros Hnil; inversion Hnil.
Qed.

(** ** Ids through [str] and [ObjectId(...)] *)

Lemma hex_value_hex_digit d :
  (d < 16)%N → Bson.hex_value (Py.hex_digit d) = Some d.
Proof.
  intros Hd.
  assert (d ∈ N.of_nat <$> seq 0 16) as Hin.
  { apply list_elem_of_fmap. exists (N.to_nat d). split; [lia |].
    apply list_elem_of_In, in_seq. lia. }
  simpl in Hin. repeat (apply elem_of_cons in Hin as [-> | Hin]; [reflexivity |]).
  inversion Hin.
Qed.

Lemma hex_fixed_length width : ∀ n acc,
  String.length (Py.hex_fixed width n acc) = (width + String.length acc)%nat.
Proof.
  induction width as [|w IH]; intros n acc; simpl; [done |].
  rewrite IH. simpl. lia.
Qed.

Lemma of_hex_hex_fixed width : ∀ n acc a,
  Bson.of_hex (Py.hex_fixed width n acc) a
  = Bson.of_hex acc (a * 16 ^ N.of_nat width + n mod 16 ^ N.of_nat width)%N.
Proof.
  induction width as [|w IH]; intros n acc a.
  - simpl. f_equal. rewrite N.mod_1_r. lia.
  - cbn [Py.hex_fixed]. rewrite IH. cbn [Bson.of_hex].
    rewrite hex_value_hex_digit by (apply N.mod_lt; lia). f_equal.
    rewrite Nat2N.inj_succ, N.pow_succ_r'.
    rewrite (N.Div0.mod_mul_r n 16 (16 ^ N.of_nat w)). lia.
Qed.

Lemma parse_str o : Bson.parse (Bson.str o) = Ok (o mod 2 ^ 96)%N.
Proof.
  unfold Bson.parse, Bson.str. rewrite hex_fixed_length. simpl String.length.
  change (24 + 0 =? 24)%nat with true. cbv iota.
  rewrite of_hex_hex_fixed. cbn [Bson.of_hex]. 
  change (16 ^ N.of_nat 24)%N with (2 ^ 96)%N. by rewrite N.mul_0_l, N.add_0_l.
Qed.

Lemma parse_str_small o : (o < 2 ^ 96)%N → Bson.parse (Bson.str o) = Ok o.
Proof. intros Ho. rewrite parse_str. by rewrite N.mod_small. Qed.

Lemma reachable_store_ok s : reachable s → store_ok s.
Proof.
  induction 1 as [|s r _ IH Hvalid]; [apply store_ok_empty |].
  by apply store_ok_run.
Qed.

(** In every store the API can reach, no two hunters, no two quests and
    no two log entries share an [_id], and every [_id] is one the store has
    already handed out. *)
Lemma reachable_ids_unique s :
  reachable s →
  NoDup (Hunter._id <$> db.hunter s)
  ∧ NoDup (Quest._id <$> db.quest s)
  ∧ NoDup (Log._id <$> db.log s)
  ∧ Forall (λ h, (Hunter._id h < db.next_oid s)%N) (db.hunter s)
  ∧ Forall (λ q, (Quest._id q < db.next_oid s)%N) (db.quest s)
  ∧ Forall (λ l, (Log._id l < db.next_oid s)%N) (db.log s).
Proof.
  intros Hr. apply reachable_store_ok in Hr as [].
  by repeat split.
Qed.

(** ** X1: a hunter's progress is a function of the lifetime total *)

(** X1.  In every store the API can reach with validated requests, each
    hunter has [level = 1 + total_exp div 100], [exp = total_exp mod 100]
    (so [0 <= exp < 100] and [level >= 1]), [rank = compute_rank(level)],
    a non-negative [total_exp] and the [energy] 100 it was created with. *)
Theorem reachable_hunter_progress s h :
  reachable s → h ∈ db.hunter s →
  Hunter.level h = 1 + Hunter.total_exp h / 100
  ∧ Hunter.exp h = Hunter.total_exp h mod 100
  ∧ 0 ≤ Hunter.exp h < 100
  ∧ 1 ≤ Hunter.level h
  ∧ 0 ≤ Hunter.total_exp h
  ∧ Hunter.rank h = compute_rank (Hunter.level h)
  ∧ Hunter.energy h = 100.
Proof.
  intros Hr Hh. apply reachable_store_ok in Hr.
  pose proof (ok_progress _ Hr) as Hall. rewrite Forall_forall in Hall.
  destruct (Hall h Hh) as (HT & HL & HE & Hrank & Henergy).
  unfold LEVEL_STEP in *. repeat split; try done;
    rewrite ?HE, ?HL; Z.div_mod_to_equations; lia.
Qed.

(** ** X2: quest statuses *)

(** X2.  In every store the API can reach, a quest's status is "pending",
    "completed" or "claimed" (the schema's "in_progress" is never written)
    and its reward is non-negative. *)
Theorem reachable_quest_status s q :
  reachable s → q ∈ db.quest s →
  (Quest.status q = "pending" ∨ Quest.status q = "completed"
   ∨ Quest.status q = "claimed")
  ∧ Quest.status q ≠ "in_progress"
  ∧ 0 ≤ Quest.exp_reward q.
Proof.
  intros Hr Hq. apply reachable_store_ok in Hr.
  pose proof (store_ok_quest_facts s Hr) as Hall.
  rewrite Forall_forall in Hall. destruct (Hall q Hq) as [HR Hs].
  split; [exact Hs |]. split; [| exact HR].
  destruct Hs as [-> | [-> | ->]]; discriminate.
Qed.

(** ** X3: nothing is ever deleted *)

Lemma stat_phase_stats_length key rw s :
  (length (db.stats s) ≤ length (db.stats (stat_phase key rw s).2))%nat.
Proof.
  unfold stat_phase, bind, lift, find_one, now, upsert_set, update_one,
    insert_one, ret.
  destruct (nonempty rw); simpl; [| lia].
  destruct (stat_loop _ _); simpl; [| lia].
  destruct (List.find _ _); simpl.
  - destruct (_ !! "_id"); [case_decide |]; simpl;
      rewrite ?update_first_length; lia.
  - destruct (_ !! "_id"); simpl; rewrite length_app; simpl; lia.
Qed.

(** X3.  No request removes or rewrites a log entry, removes a hunter or
    a quest, or shrinks the Stats collection: the log of the store before
    is a prefix of the log after, and so are the id lists of the hunter and
    quest collections. *)
Theorem run_append_only r s :
  db.log s `prefix_of` db.log (run r s)
  ∧ (Hunter._id <$> db.hunter s) `prefix_of` (Hunter._id <$> db.hunter (run r s))
  ∧ (Quest._id <$> db.quest s) `prefix_of` (Quest._id <$> db.quest (run r s))
  ∧ (length (db.stats s) ≤ length (db.stats (run r s)))%nat.
Proof.
  destruct r as [p | hid | hid | p | hid ty | qid | qid | hid n | hid];
    unfold run.
  - rewrite create_or_get_hunter_run.
    destruct (List.find _ _); simpl; [done |].
    rewrite fmap_app, length_app.
    repeat split; try done; try (by apply prefix_app_r); lia.
  - by rewrite get_hunter_state.
  - rewrite get_stats_run. destruct (List.find _ _); simpl; [done |].
    rewrite length_app. repeat split; try done; lia.
  - rewrite create_quest_run. simpl. rewrite fmap_app.
    repeat split; try done; by apply prefix_app_r.
  - done.
  - destruct (complete_quest_cases s qid)
      as [[_ ->] | [(oid & _ & _ & ->) | [(oid & q & _ & _ & _ & ->)
         | (oid & q & Hp & Hq & _ & _ & ->)]]]; try done. simpl.
    rewrite fmap_update_first by done.
    repeat split; try done; by apply prefix_app_r.
  - destruct (claim_quest_outcome s qid)
      as [ | | | | | q h new_exp level leveled_up e s2 Hc Hloop Hstat
         | q h new_exp level leveled_up s2 Hc Hloop Hstat ]; try done.
    all: pose proof (stat_phase_frame (VStr (Bson.str (Hunter._id h)))
                  (default [] (Quest.stat_reward q))
                  (awarded_state q h new_exp level s)) as (Hh & Hqs & Hl);
      pose proof (stat_phase_stats_length (VStr (Bson.str (Hunter._id h)))
                  (default [] (Quest.stat_reward q))
                  (awarded_state q h new_exp level s)) as Hlen;
      rewrite Hstat in Hh, Hqs, Hl, Hlen; simpl in Hh, Hqs, Hl, Hlen;
      simpl; rewrite ?Hh, ?Hqs, ?Hl, ?fmap_update_first by done;
      repeat split; try done; by apply prefix_app_r.
  - done.
  - rewrite seed_dailies_run. simpl. rewrite fmap_app.
    repeat split; try done; by apply prefix_app_r.
Qed.

(** ** X4: a claimed quest stays as it is *)

Lemma find_app_hit {A} (p : A → bool) c c' x :
  List.find p c = Some x → List.find p (c ++ c') = Some x.
Proof.
  induction c as [|d c IH]; simpl; [discriminate |].
  destruct (p d); auto.
Qed.

Lemma find_quest_other_update oid q' st t c :
  Quest._id q' ≠ oid →
  List.find (quest_by_id oid)
    (update_first (quest_by_id (Quest._id q')) (Quest.set_status st t) c)
  = List.find (quest_by_id oid) c.
Proof.
  intros Hne. apply find_update_first_other.
  - done.
  - intros x Hx. unfold quest_by_id in *.
    apply bool_decide_eq_true in Hx. apply bool_decide_eq_false. congruence.
Qed.

(** X4.  Once a quest is claimed, no request changes its document: the
    lookup by its id gives the same document before and after any call
    (complete and claim are no-ops on it, and the other routes never touch
    an existing quest). *)
Theorem claimed_quest_is_final r s oid q :
  List.find (quest_by_id oid) (db.quest s) = Some q →
  Quest.status q = "claimed" →
  List.find (quest_by_id oid) (db.quest (run r s)) = Some q.
Proof.
  intros Hq Hs.
  destruct r as [p | hid | hid | p | hid ty | qid | qid | hid n | hid];
    unfold run.
  - rewrite create_or_get_hunter_run. by destruct (List.find _ (db.hunter s)).
  - by rewrite get_hunter_state.
  - rewrite get_stats_run. by destruct (List.find _ (db.stats s)).
  - rewrite create_quest_run. simpl. by apply find_app_hit.
  - done.
  - destruct (complete_quest_cases s qid)
      as [[_ ->] | [(oid' & _ & _ & ->) | [(oid' & q' & _ & _ & _ & ->)
         | (oid' & q' & Hp & Hq' & Hs1 & Hs2 & ->)]]]; try done. simpl.
    rewrite find_quest_other_update; [done |].
    intros Heq. rewrite (find_quest_by_id _ _ _ Hq') in Heq. subst oid'.
    congruence.
  - destruct (claim_quest_outcome s qid)
      as [ | | | | | q' h new_exp level leveled_up e s2 Hc Hloop Hstat
         | q' h new_exp level leveled_up s2 Hc Hloop Hstat ]; try done.
    all: pose proof (stat_phase_frame (VStr (Bson.str (Hunter._id h)))
                  (default [] (Quest.stat_reward q'))
                  (awarded_state q' h new_exp level s)) as (_ & Hqs & _);
      rewrite Hstat in Hqs; simpl in Hqs; simpl; rewrite ?Hqs; try done.
    rewrite find_quest_other_update; [done |].
    destruct Hc as [(oid' & _ & Hq') Hs' _].
    intros Heq. rewrite (find_quest_by_id _ _ _ Hq') in Heq. subst oid'.
    congruence.
  - done.
  - rewrite seed_dailies_run. simpl. by apply find_app_hit.
Qed.

(** ** X5: claiming twice awards once *)

Lemma claim_quest_noop s quest_id oid q :
  Bson.parse quest_id = Ok oid →
  List.find (quest_by_id oid) (db.quest s) = Some q →
  Quest.status q = "claimed" →
  claim_quest quest_id s = (Ok [("status", VStr "claimed")], s).
Proof.
  intros Hp Hq Hs. unfold claim_quest, bind, lift, find_one.
  rewrite Hp. simpl. rewrite Hq, Hs. reflexivity.
Qed.

(** X5.  A claim that goes through followed by a second claim of the same
    quest: the second answers [{"status": "claimed"}] and leaves the store
    of the first untouched, so the hunter holds the reward once. *)
Theorem claim_quest_twice s quest_id q h :
  claimable s quest_id q h →
  stat_reward_applicable s q h →
  ∃ resp s1 h1,
    claim_quest quest_id s = (Ok resp, s1)
    ∧ claim_quest quest_id s1 = (Ok [("status", VStr "claimed")], s1)
    ∧ List.find (hunter_by_id (Hunter._id h)) (db.hunter s1) = Some h1
    ∧ Hunter.total_exp h1 = Hunter.total_exp h + Quest.exp_reward q.
Proof.
  intros Hc Happ.
  destruct (level_loop (Hunter.exp h + Quest.exp_reward q) (Hunter.level h)
              false) as [[new_exp level] leveled_up] eqn:Hloop.
  destruct (claim_quest_succeeds _ _ _ _ _ _ _ Hc Hloop Happ)
    as (s2 & Hstat & Hrun).
  pose proof (claim_quest_hunter_written _ _ _ _ _ _ _ Hc Hloop) as Hh.
  rewrite Hrun in Hh. cbn [snd] in Hh.
  pose proof (stat_phase_frame (VStr (Bson.str (Hunter._id h)))
                (default [] (Quest.stat_reward q))
                (awarded_state q h new_exp level s)) as (_ & Hquest & _).
  rewrite Hstat in Hquest. simpl in Hquest.
  destruct Hc as [(oid & Hp & Hq) Hs Hhunter].
  do 3 eexists. split; [exact Hrun |]. split; [| split].
  - apply (claim_quest_noop _ _ oid (Quest.set_status "claimed" (db.clock s2) q));
      [done | | done].
    simpl. rewrite Hquest. rewrite (find_quest_by_id _ _ _ Hq).
    apply find_update_first; [exact Hq |].
    unfold quest_by_id. apply bool_decide_eq_true. simpl.
    exact (find_quest_by_id _ _ _ Hq).
  - rewrite Hh. apply find_update_first.
    + destruct Hhunter as (hid & _ & Hf).
      by rewrite (find_hunter_by_id _ _ _ Hf).
    + unfold hunter_by_id. by apply bool_decide_eq_true.
  - reflexivity.
Qed.

(** ** X6: a claim is not atomic *)

Lemma stat_phase_failure key rw s e s' :
  stat_phase key rw s = (Raise e, s') → db.stats s' = db.stats s.
Proof.
  unfold stat_phase, bind, lift, find_one, now, upsert_set, update_one,
    insert_one, ret.
  destruct (nonempty rw); [| done].
  destruct (stat_loop _ _); simpl.
  - destruct (List.find _ _); simpl.
    + destruct (_ !! "_id"); [case_decide |]; try done.
      by intros [= _ <-].
    + destruct (_ !! "_id"); done.
  - by intros [= _ <-].
Qed.

(** X6.  When the stat block of a claim raises (a reward key that meets a
    non-integer field of the Stats document), the hunter's new exp, level
    and total are already stored, while the quest keeps its status and
    nothing is logged: the quest can be claimed again, on top of the total
    already granted. *)
Theorem claim_quest_not_atomic s quest_id q h e s' :
  claimable s quest_id q h →
  claim_quest quest_id s = (Raise e, s') →
  (e = TypeError ∨ e = ValueError ∨ e = WriteError)
  ∧ db.quest s' = db.quest s
  ∧ db.log s' = db.log s
  ∧ db.stats s' = db.stats s
  ∧ ∃ h', claimable s' quest_id q h'
          ∧ Hunter.total_exp h' = Hunter.total_exp h + Quest.exp_reward q.
Proof.
  intros Hc Hrun.
  destruct (level_loop (Hunter.exp h + Quest.exp_reward q) (Hunter.level h)
              false) as [[new_exp level] leveled_up] eqn:Hloop.
  pose proof (claim_quest_hunter_written _ _ _ _ _ _ _ Hc Hloop) as Hh.
  rewrite Hrun in Hh. cbn [snd] in Hh.
  rewrite (claim_quest_found _ _ _ _ _ _ _ Hc Hloop) in Hrun.
  pose proof (stat_phase_frame (VStr (Bson.str (Hunter._id h)))
                (default [] (Quest.stat_reward q))
                (awarded_state q h new_exp level s)) as (_ & Hquest & Hlog).
  destruct (stat_phase _ _ _) as [[[]|e'] s2] eqn:Hstat; [discriminate |].
  injection Hrun as -> ->. simpl in Hquest, Hlog.
  split; [by eapply stat_phase_exn |]. split; [exact Hquest |].
  split; [exact Hlog |].
  split; [by rewrite (stat_phase_failure _ _ _ _ _ Hstat) |].
  destruct Hc as [(oid & Hp & Hq) Hs (hid & Hhid & Hf)].
  eexists. split; [split |].
  - exists oid. split; [done |]. by rewrite Hquest.
  - done.
  - exists hid. split; [done |]. rewrite Hh.
    rewrite (find_hunter_by_id _ _ _ Hf).
    apply find_update_first; [exact Hf |].
    unfold hunter_by_id. apply bool_decide_eq_true. simpl.
    exact (find_hunter_by_id _ _ _ Hf).
  - reflexivity.
Qed.

(** ** X7: how [complete_quest] fails *)


(** ** X8: [get_hunter] *)


(** ** X9: a created hunter can be fetched by the id it was given *)

Lemma find_by_unique_id c h :
  NoDup (Hunter._id <$> c) → h ∈ c →
  List.find (hunter_by_id (Hunter._id h)) c = Some h.
Proof.
  intros Hnd Hin. induction c as [|d c IH]; [inversion Hin |].
  rewrite fmap_cons in Hnd. apply NoDup_cons in Hnd as [Hd Hnd]. simpl.
  unfold hunter_by_id at 1. case_bool_decide as Heq.
  - apply elem_of_cons in Hin as [-> | Hin]; [done |].
    exfalso. apply Hd. rewrite Heq. apply list_elem_of_fmap. by exists h.
  - apply elem_of_cons in Hin as [-> | Hin]; [done |]. by apply IH.
Qed.

(** X9.  In a store the API can reach, with ids still below 2^96, the
    id [create_or_get_hunter] returns (for a new or an existing hunter) is
    accepted by [get_hunter], which returns the same document and writes
    nothing. *)
Theorem create_then_get_hunter s payload :
  reachable s → (db.next_oid s < 2 ^ 96)%N →
  ∃ resp s1 id,
    create_or_get_hunter payload s = (Ok resp, s1)
    ∧ Py.get resp "id" = Some (VStr id)
    ∧ get_hunter id s1 = (Ok resp, s1).
Proof.
  intros Hok Hsmall. apply reachable_store_ok in Hok.
  assert (∀ s1 h, NoDup (Hunter._id <$> db.hunter s1) → h ∈ db.hunter s1 →
            (Hunter._id h < 2 ^ 96)%N →
            get_hunter (Bson.str (Hunter._id h)) s1
            = (Ok (serialize (hunter_dict h)), s1)) as Hget.
  { intros s1 h Hnd Hin Hlt. unfold get_hunter, bind, lift, find_one.
    rewrite parse_str_small by done. simpl.
    by rewrite (find_by_unique_id _ _ Hnd Hin). }
  rewrite create_or_get_hunter_run.
  destruct (List.find _ _) as [h|] eqn:Hfind.
  - apply find_some in Hfind as [Hin _]. apply list_elem_of_In in Hin.
    exists (serialize (hunter_dict h)), s, (Bson.str (Hunter._id h)).
    split; [done |]. split; [done |].
    apply Hget; [apply Hok | done |].
    pose proof (ok_hunter_ids _ Hok) as Hids. rewrite Forall_forall in Hids.
    specialize (Hids h Hin). simpl in Hids. lia.
  - pose proof (store_ok_run s (CreateOrGetHunter payload) Hok I) as Hok'.
    unfold run in Hok'. rewrite create_or_get_hunter_run, Hfind in Hok'.
    simpl in Hok'.
    exists (serialize (hunter_dict (new_hunter payload s))),
           (created_state payload s), (Bson.str (db.next_oid s)).
    split; [done |]. split; [done |].
    apply (Hget (created_state payload s) (new_hunter payload s));
      [apply Hok' | | done].
    simpl. apply elem_of_app. right. by left.
Qed.

(** ** X10: [get_stats] creates lazily, once *)

Lemma find_field_is_app_new key v (c : list StatsDoc) d :
  List.find (field_is key v) c = None → d !! key = Some v →
  List.find (field_is key v) (c ++ [d]) = Some d.
Proof.
  intros Hnone Hd. rewrite (find_app_miss _ _ _ Hnone). simpl.
  unfold field_is. by rewrite bool_decide_eq_true_2.
Qed.

(** X10.  [get_stats] always returns, for any [hunter_id] string (no
    hunter need exist); a second call returns the same document and writes
    nothing.  When no Stats document had that [hunter_id], the first call
    appends exactly one, with the five counters at 1, and touches nothing
    else; when one had, the first call writes nothing either. *)
Theorem get_stats_lazy s hunter_id :
  ∃ resp s1,
    get_stats hunter_id s = (Ok resp, s1)
    ∧ get_stats hunter_id s1 = (Ok resp, s1)
    ∧ db.hunter s1 = db.hunter s ∧ db.quest s1 = db.quest s
    ∧ db.log s1 = db.log s
    ∧ (is_Some (List.find (field_is "hunter_id" (VStr hunter_id)) (db.stats s))
       → s1 = s)
    ∧ (List.find (field_is "hunter_id" (VStr hunter_id)) (db.stats s) = None →
       ∃ d : StatsDoc,
         db.stats s1 = (db.stats s ++ [d])%list
         ∧ d !! "hunter_id" = Some (VStr hunter_id)
         ∧ (∀ k, k ∈ ["STR"; "INT"; "DEX"; "STA"; "LUK"] →
                 d !! k = Some (VInt 1) ∧ resp !! k = Some (VInt 1))
         ∧ resp !! "id" = Some (VStr (Bson.str (db.next_oid s)))
         ∧ resp !! "_id" = None).
Proof.
  rewrite get_stats_run.
  destruct (List.find _ (db.stats s)) as [d|] eqn:Hfind.
  - exists (serialize_map d), s. rewrite get_stats_run, Hfind.
    repeat split; try done.
  - exists (serialize_map (lazy_stats hunter_id s)),
           (stats_created_state hunter_id s).
    split; [done |]. split.
    { rewrite get_stats_run. simpl.
      by rewrite (find_field_is_app_new _ _ _ (lazy_stats hunter_id s) Hfind). }
    do 3 (split; [done |]). split; [by intros [? [=]] |].
    intros _. exists (lazy_stats hunter_id s). split; [done |].
    split; [done |]. split; [| by split].
    intros k Hk.
    repeat (apply elem_of_cons in Hk as [-> | Hk]; [by split |]).
    inversion Hk.
Qed.

(** ** X11: a created quest can be completed by the id it was given *)

Lemma find_quest_fresh o c :
  Forall (λ q, (Quest._id q < o)%N) c → List.find (quest_by_id o) c = None.
Proof.
  intros Hall. induction Hall as [|q c Hq _ IH]; simpl; [done |].
  unfold quest_by_id at 1. rewrite bool_decide_eq_false_2 by lia. exact IH.
Qed.

(** X11.  [create_quest] registers the quest as "pending" for whatever
    [hunter_id] it is given (no hunter is looked up), and in a store the
    API can reach, with ids still below 2^96, the id it returns is accepted
    by [complete_quest], which marks that very quest "completed". *)
Theorem create_then_complete_quest s payload :
  reachable s → (db.next_oid s < 2 ^ 96)%N →
  ∃ resp s1 id s2,
    create_quest payload s = (Ok resp, s1)
    ∧ Py.get resp "id" = Some (VStr id)
    ∧ Py.get resp "status" = Some (VStr "pending")
    ∧ Py.get resp "hunter_id" = Some (VStr (qc_hunter_id payload))
    ∧ db.hunter s1 = db.hunter s
    ∧ db.quest s1 = (db.quest s ++ [new_quest payload s])%list
    ∧ complete_quest id s1 = (Ok [("status", VStr "completed")], s2)
    ∧ List.find (quest_by_id (db.next_oid s)) (db.quest s2)
      = Some (Quest.set_status "completed" (db.clock s + 3)
                (new_quest payload s)).
Proof.
  intros Hok Hsmall. apply reachable_store_ok in Hok.
  rewrite create_quest_run.
  set (s1 := quest_created_state payload s).
  assert (List.find (quest_by_id (db.next_oid s)) (db.quest s1)
          = Some (new_quest payload s)) as Hfind.
  { simpl. rewrite find_app_miss by (apply find_quest_fresh, Hok). simpl.
    unfold quest_by_id. by rewrite bool_decide_eq_true_2. }
  exists (serialize (quest_dict (new_quest payload s))), s1,
         (Bson.str (db.next_oid s)),
         (completed_state (new_quest payload s) s1).
  do 6 (split; [done |]).
  destruct (complete_quest_cases s1 (Bson.str (db.next_oid s)))
    as [[Hp _] | [(oid & Hp & Hq & _) | [(oid & q & Hp & Hq & Hs & _)
       | (oid & q & Hp & Hq & _ & _ & Hrun)]]];
    rewrite parse_str_small in Hp by done; try discriminate;
    injection Hp as <-; rewrite Hfind in Hq; try discriminate;
    injection Hq as <-.
  - by destruct Hs.
  - split; [exact Hrun |].
    apply (find_update_first _ _ _ _ Hfind).
    unfold quest_by_id. by apply bool_decide_eq_true.
Qed.

(** ** X12 and X13: listings *)

#[local] Instance newer_first_total {A} (created_at : A → datetime) :
  Total (newer_first created_at).
Proof. intros a b. unfold newer_first. lia. Qed.

#[local] Instance newer_first_trans {A} (created_at : A → datetime) :
  Transitive (newer_first created_at).
Proof. intros a b c. unfold newer_first. lia. Qed.

Lemma sort_newest_first_spec {A} (created_at : A → datetime) (l : list A) :
  sort_newest_first created_at l ≡ₚ l
  ∧ StronglySorted (newer_first created_at) (sort_newest_first created_at l).
Proof.
  split; [apply merge_sort_Permutation | apply StronglySorted_merge_sort; apply _].
Qed.


(** X13.  [get_logs] never writes and returns, newest first, log entries
    of the given [hunter_id] only; with a positive [limit] it returns the
    first [limit] of them (all, when there are fewer), and with [limit = 0]
    it returns them all. *)
Theorem get_logs_newest_first s hunter_id limit :
  ∃ sorted docs,
    get_logs hunter_id limit s
      = (Ok (map (λ d, serialize (log_dict d)) docs), s)
    ∧ StronglySorted (λ a b, Log.created_at b ≤ Log.created_at a) sorted
    ∧ (∀ l, l ∈ sorted ↔ l ∈ db.log s ∧ Log.hunter_id l = hunter_id)
    ∧ (length sorted ≤ length (db.log s))%nat
    ∧ (0 < limit → docs = take (Z.to_nat limit) sorted
                   ∧ Z.of_nat (length docs)
                     = Z.min limit (Z.of_nat (length sorted)))
    ∧ (limit = 0 → docs = sorted).
Proof.
  unfold get_logs.
  set (flt := λ l : Log.t, bool_decide (Log.hunter_id l = hunter_id)).
  destruct (sort_newest_first_spec Log.created_at
              (List.filter flt (db.log s))) as [Hperm Hsorted].
  do 2 eexists. split; [reflexivity |]. split; [exact Hsorted |].
  split; [| split; [| split]].
  - intros l. rewrite Hperm, list_elem_of_In, filter_In, <- list_elem_of_In.
    unfold flt. by rewrite bool_decide_eq_true.
  - rewrite Hperm. apply filter_length_le.
  - intros Hpos. unfold cursor_limit.
    destruct (Z.eqb_spec limit 0); [lia |].
    rewrite Z.abs_eq by lia. split; [reflexivity |].
    rewrite length_take. lia.
  - intros ->. reflexivity.
Qed.

(** ** X14: seeding dailies *)

(** X14.  [seed_dailies] appends exactly three quests for the given
    [hunter_id] (no hunter is looked up), all "daily" and "pending", worth
    25, 30 and 20 EXP, and exactly one info log entry; it writes nothing
    else and returns the three quests with their ids, without a
    [description] or [due_date] key. *)
Theorem seed_dailies_creates s hunter_id :
  ∃ resp s1 q1 q2 q3 entry,
    seed_dailies hunter_id s = (Ok resp, s1)
    ∧ db.quest s1 = (db.quest s ++ [q1; q2; q3])%list
    ∧ Forall (λ q, Quest.status q = "pending" ∧ Quest.hunter_id q = hunter_id
                   ∧ Quest.type q = "daily")
             [q1; q2; q3]
    ∧ Quest.exp_reward <$> [q1; q2; q3] = [25; 30; 20]
    ∧ Quest.stat_reward <$> [q1; q2; q3]
      = [Some [("INT", 1)]; Some [("STR", 1); ("STA", 1)]; Some [("INT", 1)]]
    ∧ db.log s1 = (db.log s ++ [entry])%list
    ∧ Log.message entry = "System: Daily quests generated."
    ∧ Log.level entry = "info" ∧ Log.hunter_id entry = hunter_id
    ∧ db.hunter s1 = db.hunter s ∧ db.stats s1 = db.stats s
    ∧ (λ d, Py.get d "id") <$> resp
      = (λ q, Some (VStr (Bson.str (Quest._id q)))) <$> [q1; q2; q3]
    ∧ Forall (λ d, Py.get d "status" = Some (VStr "pending")
                   ∧ Py.get d "description" = None
                   ∧ Py.get d "due_date" = None
                   ∧ Py.get d "_id" = None) resp.
Proof.
  rewrite seed_dailies_run.
  exists (seed_response hunter_id s), (seeded_state hunter_id s).
  do 4 eexists. split; [reflexivity |]. split; [reflexivity |].
  repeat split; repeat constructor; reflexivity.
Qed.

(** ** X15: [serialize] *)

Lemma get_pop_eq (d : pydict value) k :
  NoDup d.*1 → Py.get (pop k d) k = None.
Proof.
  induction d as [|[k' v] d IH]; intros Hnd; simpl; [done |].
  rewrite fmap_cons in Hnd. apply NoDup_cons in Hnd as [Hk' Hnd].
  destruct (String.eqb_spec k k') as [-> | Hne]; simpl.
  - clear IH. induction d as [|[k'' v'] d IH]; simpl; [done |].
    rewrite fmap_cons in Hk'. apply not_elem_of_cons in Hk' as [Hne Hk'].
    rewrite fmap_cons in Hnd. apply NoDup_cons in Hnd as [_ Hnd].
    destruct (String.eqb_spec k' k''); [done | by apply IH].
  - destruct (String.eqb_spec k k'); [done | by apply IH].
Qed.

Lemma get_pop_ne (d : pydict value) k k' :
  k' ≠ k → Py.get (pop k d) k' = Py.get d k'.
Proof.
  intros Hne. induction d as [|[k'' v] d IH]; simpl; [done |].
  destruct (String.eqb_spec k k'') as [-> | Hne'].
  - by destruct (String.eqb_spec k' k'').
  - simpl. by rewrite IH.
Qed.

Lemma get_set (d : pydict value) k v k' :
  Py.get (Py.set d k v) k' = if String.eqb k' k then Some v else Py.get d k'.
Proof.
  induction d as [|[k'' v'] d IH]; simpl; [done |].
  destruct (String.eqb_spec k k'') as [-> | Hne]; simpl.
  - by destruct (String.eqb_spec k' k'').
  - rewrite IH. destruct (String.eqb_spec k' k'') as [-> | ?]; [| done].
    by destruct (String.eqb_spec k'' k).
Qed.

Lemma set_nonempty (d : pydict value) k v : Py.set d k v ≠ [].
Proof. destruct d as [|[k' v'] d]; simpl; [done |]. by destruct (String.eqb k k'). Qed.

(** X15.  On a dict (no key twice) with a truthy [_id], [serialize] drops
    [_id], sets [id] to [str_id] of it and keeps every other entry; a dict
    with no [_id], or a falsy one such as [0] or [None], comes back as it
    is; and serializing twice is serializing once. *)
Theorem serialize_swaps_id (doc : pydict value) :
  NoDup doc.*1 →
  (∀ i, Py.get doc "_id" = Some i → truthy i = true →
     Py.get (serialize doc) "_id" = None
     ∧ Py.get (serialize doc) "id" = Some (str_id i)
     ∧ ∀ k, k ≠ "_id" → k ≠ "id" → Py.get (serialize doc) k = Py.get doc k)
  ∧ (Py.get doc "_id" = None → serialize doc = doc)
  ∧ (∀ i, Py.get doc "_id" = Some i → truthy i = false → serialize doc = doc)
  ∧ serialize (serialize doc) = serialize doc.
Proof.
  intros Hnd.
  assert (∀ i, Py.get doc "_id" = Some i → truthy i = true →
            serialize doc = Py.set (pop "_id" doc) "id" (str_id i)) as Hswap.
  { intros i Hi Ht. unfold serialize. destruct doc; [done |].
    by rewrite Hi, Ht. }
  assert (∀ d : pydict value, Py.get d "_id" = None → serialize d = d) as Hnone.
  { intros d Hd. unfold serialize. destruct d; [done |]. by rewrite Hd. }
  assert (∀ i, Py.get doc "_id" = Some i → truthy i = false →
            serialize doc = doc) as Hfalsy.
  { intros i Hi Ht. unfold serialize. destruct doc; [done |].
    by rewrite Hi, Ht. }
  assert (∀ i, Py.get doc "_id" = Some i → truthy i = true →
            Py.get (serialize doc) "_id" = None) as Hgone.
  { intros i Hi Ht. rewrite (Hswap i Hi Ht), get_set. simpl.
    by apply get_pop_eq. }
  split; [| split; [| split]].
  - intros i Hi Ht. split; [by eapply Hgone |]. rewrite (Hswap i Hi Ht).
    split.
    + by rewrite get_set.
    + intros k Hk1 Hk2. rewrite get_set.
      destruct (String.eqb_spec k "id"); [done |]. by apply get_pop_ne.
  - apply Hnone.
  - exact Hfalsy.
  - destruct (Py.get doc "_id") as [i|] eqn:Hi.
    + destruct (truthy i) eqn:Ht.
      * apply Hnone. exact (Hgone i eq_refl Ht).
      * by rewrite !(Hfalsy i eq_refl Ht).
    + by rewrite !(Hnone doc Hi).
Qed.

(** ** X16: a claim never demotes *)

Lemma compute_rank_mono l1 l2 :
  l1 ≤ l2 →
  (rank_index (compute_rank l1) ≤ rank_index (compute_rank l2))%nat.
Proof.
  intros Hle. unfold compute_rank.
  destruct (Z.leb_spec 30 l1), (Z.leb_spec 25 l1), (Z.leb_spec 20 l1),
    (Z.leb_spec 15 l1), (Z.leb_spec 10 l1), (Z.leb_spec 5 l1); try lia;
  destruct (Z.leb_spec 30 l2), (Z.leb_spec 25 l2), (Z.leb_spec 20 l2),
    (Z.leb_spec 15 l2), (Z.leb_spec 10 l2), (Z.leb_spec 5 l2); try lia;
  vm_compute; lia.
Qed.

(** X16.  Whatever the reward of the quest (even a negative one, which
    the loop never turns into a level-down) and whether or not the claim
    then raises, the hunter a claim writes has a level and a rank at least
    those before; with a non-negative reward the lifetime total does not
    shrink either. *)
Theorem claim_quest_never_demotes s quest_id q h :
  claimable s quest_id q h →
  Hunter.rank h = compute_rank (Hunter.level h) →
  ∃ h',
    List.find (hunter_by_id (Hunter._id h)) (db.hunter (claim_quest quest_id s).2)
      = Some h'
    ∧ Hunter.level h ≤ Hunter.level h'
    ∧ (rank_index (Hunter.rank h) ≤ rank_index (Hunter.rank h'))%nat
    ∧ (0 ≤ Quest.exp_reward q → Hunter.total_exp h ≤ Hunter.total_exp h').
Proof.
  intros Hc Hrank.
  destruct (level_loop (Hunter.exp h + Quest.exp_reward q) (Hunter.level h)
              false) as [[new_exp level] leveled_up] eqn:Hloop.
  rewrite (claim_quest_hunter_written _ _ _ _ _ _ _ Hc Hloop).
  eexists. split.
  { apply find_update_first; [exact (claimable_hunter_found _ _ _ _ Hc) |].
    unfold hunter_by_id. by apply bool_decide_eq_true. }
  simpl. rewrite level_loop_closed_form in Hloop. unfold LEVEL_STEP in Hloop.
  assert (Hunter.level h ≤ level) as Hlevel.
  { destruct (Z.ltb_spec (Hunter.exp h + Quest.exp_reward q) 100);
      injection Hloop as <- <- _; [lia |]. Z.div_mod_to_equations; lia. }
  split; [exact Hlevel |]. split; [| lia].
  rewrite Hrank. by apply compute_rank_mono.
Qed.

(** * Worked scenarios for the other routes *)

Lemma s_quest_reachable : reachable s_quest.
Proof.
  apply reach_step; [apply reach_step; [apply reach_empty | exact I] |].
  simpl. lia.
Defined.

Lemma s_claimed_reachable : reachable s_claimed.
Proof. apply reach_step; [exact s_quest_reachable | exact I]. Defined.

Lemma reachable_hunter_progress_witness :
  reachable s_claimed
  ∧ ∃ h, h ∈ db.hunter s_claimed
         ∧ Hunter.total_exp h = 250 ∧ Hunter.level h = 3 ∧ Hunter.exp h = 50
         ∧ Hunter.level h = 1 + Hunter.total_exp h / 100
         ∧ Hunter.exp h = Hunter.total_exp h mod 100.
Proof.
  split; [exact s_claimed_reachable |].
  assert (∃ h, db.hunter s_claimed = [h] ∧ Hunter.total_exp h = 250
               ∧ Hunter.level h = 3 ∧ Hunter.exp h = 50)
    as (h & Hh & HT & HL & HE).
  { vm_compute. eexists. split; [reflexivity |]. repeat split. }
  assert (h ∈ db.hunter s_claimed) as Hin by (rewrite Hh; left).
  exists h. split; [exact Hin |]. do 3 (split; [done |]).
  destruct (reachable_hunter_progress s_claimed h s_claimed_reachable Hin)
    as (H1 & H2 & _). split; [exact H1 | exact H2].
Defined.

Lemma reachable_quest_status_witness :
  reachable s_claimed
  ∧ ∃ q, q ∈ db.quest s_claimed ∧ Quest.status q = "claimed"
         ∧ Quest.status q ≠ "in_progress" ∧ 0 ≤ Quest.exp_reward q.
Proof.
  split; [exact s_claimed_reachable |].
  assert (∃ q, db.quest s_claimed = [q] ∧ Quest.status q = "claimed")
    as (q & Hq & Hs).
  { vm_compute. eexists. split; reflexivity. }
  assert (q ∈ db.quest s_claimed) as Hin by (rewrite Hq; left).
  exists q. split; [exact Hin |]. split; [exact Hs |].
  destruct (reachable_quest_status s_claimed q s_claimed_reachable Hin)
    as (_ & H1 & H2). split; [exact H1 | exact H2].
Defined.

Lemma s_claimed_quest :
  List.find (quest_by_id 3%N) (db.quest s_claimed) = Some gate_quest_claimed.
Proof. vm_compute. reflexivity. Defined.

(** Completing, claiming again or seeding leaves the claimed quest alone. *)
Lemma claimed_quest_is_final_witness :
  List.find (quest_by_id 3%N) (db.quest s_claimed) = Some gate_quest_claimed
  ∧ Quest.status gate_quest_claimed = "claimed"
  ∧ List.find (quest_by_id 3%N)
      (db.quest (run (CompleteQuest "000000000000000000000003") s_claimed))
    = Some gate_quest_claimed
  ∧ List.find (quest_by_id 3%N)
      (db.quest (run (SeedDailies "000000000000000000000000") s_claimed))
    = Some gate_quest_claimed.
Proof.
  split; [exact s_claimed_quest |]. split; [reflexivity |]. split.
  - exact (claimed_quest_is_final (CompleteQuest "000000000000000000000003")
             s_claimed 3%N gate_quest_claimed s_claimed_quest eq_refl).
  - exact (claimed_quest_is_final (SeedDailies "000000000000000000000000")
             s_claimed 3%N gate_quest_claimed s_claimed_quest eq_refl).
Defined.

Lemma s_quest_claimable :
  claimable s_quest "000000000000000000000003" demo_quest_doc demo_hunter_doc.
Proof.
  split; [exists 3%N | discriminate | exists 0%N]; split;
    vm_compute; reflexivity.
Defined.

Lemma s_clash_claimable :
  claimable s_clash "000000000000000000000003" clash_quest_doc demo_hunter_doc.
Proof.
  split; [exists 3%N | discriminate | exists 0%N]; split;
    vm_compute; reflexivity.
Defined.

Lemma s_quest_applicable :
  stat_reward_applicable s_quest demo_quest_doc demo_hunter_doc.
Proof.
  split; [| split].
  - simpl. apply NoDup_singleton.
  - simpl. intros k Hk. apply list_elem_of_singleton in Hk as ->.
    unfold reserved_keys. rewrite !elem_of_cons.
    intros [? | [? | [? | [? | Hnil]]]]; try discriminate. inversion Hnil.
  - apply counters_are_intb_sound. vm_compute. reflexivity.
Defined.

Lemma claim_quest_twice_witness :
  claimable s_quest "000000000000000000000003" demo_quest_doc demo_hunter_doc
  ∧ stat_reward_applicable s_quest demo_quest_doc demo_hunter_doc
  ∧ ∃ resp s1 h1,
      claim_quest "000000000000000000000003" s_quest = (Ok resp, s1)
      ∧ claim_quest "000000000000000000000003" s1
        = (Ok [("status", VStr "claimed")], s1)
      ∧ List.find (hunter_by_id 0%N) (db.hunter s1) = Some h1
      ∧ Hunter.total_exp h1 = 250.
Proof.
  split; [exact s_quest_claimable |]. split; [exact s_quest_applicable |].
  exact (claim_quest_twice s_quest "000000000000000000000003" demo_quest_doc
           demo_hunter_doc s_quest_claimable s_quest_applicable).
Defined.

Lemma s_clash_run :
  claim_quest "000000000000000000000003" s_clash
  = (Raise TypeError, (claim_quest "000000000000000000000003" s_clash).2).
Proof. vm_compute. reflexivity. Defined.

(** The quest rewarding ["created_at"]: the claim raises [TypeError], the
    hunter already has the 40 EXP, and the quest is still claimable. *)
Lemma claim_quest_not_atomic_witness :
  claimable s_clash "000000000000000000000003" clash_quest_doc demo_hunter_doc
  ∧ ∃ s', claim_quest "000000000000000000000003" s_clash = (Raise TypeError, s')
      ∧ db.quest s' = db.quest s_clash
      ∧ db.log s' = db.log s_clash
      ∧ ∃ h', claimable s' "000000000000000000000003" clash_quest_doc h'
              ∧ Hunter.total_exp h' = 40.
Proof.
  split; [exact s_clash_claimable |].
  destruct (claim_quest_not_atomic s_clash "000000000000000000000003"
              clash_quest_doc demo_hunter_doc _ _ s_clash_claimable s_clash_run)
    as (_ & Hq & Hl & _ & Hagain).
  eexists. split; [exact s_clash_run |]. split; [exact Hq |].
  split; [exact Hl | exact Hagain].
Defined.

Lemma create_then_get_hunter_witness :
  reachable s_quest ∧ (db.next_oid s_quest < 2 ^ 96)%N
  ∧ ∃ resp s1 id,
      create_or_get_hunter
        {| hc_display_name := "Jinho"; hc_email := None |} s_quest
      = (Ok resp, s1)
      ∧ Py.get resp "id" = Some (VStr id)
      ∧ get_hunter id s1 = (Ok resp, s1).
Proof.
  assert (db.next_oid s_quest < 2 ^ 96)%N as Hsmall by (vm_compute; reflexivity).
  split; [exact s_quest_reachable |]. split; [exact Hsmall |].
  exact (create_then_get_hunter s_quest _ s_quest_reachable Hsmall).
Defined.

Lemma create_then_complete_quest_witness :
  reachable s_quest ∧ (db.next_oid s_quest < 2 ^ 96)%N
  ∧ ∃ resp s1 id s2,
      create_quest stray_quest s_quest = (Ok resp, s1)
      ∧ Py.get resp "id" = Some (VStr id)
      ∧ complete_quest id s1 = (Ok [("status", VStr "completed")], s2).
Proof.
  assert (db.next_oid s_quest < 2 ^ 96)%N as Hsmall by (vm_compute; reflexivity).
  split; [exact s_quest_reachable |]. split; [exact Hsmall |].
  destruct (create_then_complete_quest s_quest stray_quest
              s_quest_reachable Hsmall)
    as (resp & s1 & id & s2 & H1 & H2 & _ & _ & _ & _ & H3 & _).
  exists resp, s1, id, s2. split; [exact H1 |]. split; [exact H2 | exact H3].
Defined.

Lemma serialize_swaps_id_witness :
  NoDup (hunter_dict demo_hunter_doc).*1
  ∧ Py.get (serialize (hunter_dict demo_hunter_doc)) "_id" = None
  ∧ Py.get (serialize (hunter_dict demo_hunter_doc)) "id"
    = Some (VStr "000000000000000000000000")
  ∧ serialize [("_id", VInt 0); ("n", VInt 1)] = [("_id", VInt 0); ("n", VInt 1)].
Proof.
  assert (NoDup (hunter_dict demo_hunter_doc).*1) as Hnd.
  { apply NoDup_ListNoDup. simpl.
    repeat (constructor; [simpl; intuition discriminate |]). constructor. }
  assert (NoDup ([("_id", VInt 0); ("n", VInt 1)] : pydict value).*1) as Hnd'.
  { apply NoDup_ListNoDup. simpl.
    repeat (constructor; [simpl; intuition discriminate |]). constructor. }
  split; [exact Hnd |].
  destruct (serialize_swaps_id _ Hnd) as (Hswap & _).
  destruct (Hswap (VOid 0%N) eq_refl eq_refl) as (H1 & H2 & _).
  split; [exact H1 |]. split; [exact H2 |].
  destruct (serialize_swaps_id _ Hnd') as (_ & _ & Hfalsy & _).
  exact (Hfalsy (VInt 0) eq_refl eq_refl).
Defined.

Lemma claim_quest_never_demotes_witness :
  claimable s_quest "000000000000000000000003" demo_quest_doc demo_hunter_doc
  ∧ Hunter.rank demo_hunter_doc = compute_rank (Hunter.level demo_hunter_doc)
  ∧ ∃ h', List.find (hunter_by_id 0%N) (db.hunter s_claimed) = Some h'
          ∧ 1 ≤ Hunter.level h'
          ∧ (rank_index "E" ≤ rank_index (Hunter.rank h'))%nat.
Proof.
  split; [exact s_quest_claimable |]. split; [reflexivity |].
  destruct (claim_quest_never_demotes s_quest "000000000000000000000003"
              demo_quest_doc demo_hunter_doc s_quest_claimable eq_refl)
    as (h' & Hfind & Hlevel & Hrank & _).
  exists h'. split; [exact Hfind |]. split; [exact Hlevel | exact Hrank].
Defined.
